(** * Lazy zero-phase filtering of multi-segment recordings

    A shallow embedding of [spikeinterface/toolkit/preprocessing/filter.py]:
    the three filter recordings ([FilterRecording], [BandpassFilterRecording],
    [NotchFilterRecording]), the segment they share ([FilterRecordingSegment])
    and the engine dispatcher ([filter]).

    Python values are embedded as follows.
    - a Python [float] is a binary64 number: Rocq's primitive [float];
    - a Python [int] is a [Z];
    - a [str] is a [string], a [dict] with string keys a [gmap string _];
    - an exception is a constructor of [exn], and code that may raise returns
      a [result];
    - [__init__] methods mutate [self]: they are computations in a state and
      error monad over the object under construction;
    - [scipy.signal] and [numpy] are collaborators, taken as interfaces. *)

From Stdlib Require Import Floats Uint63 ZArith QArith Qround Qabs Lia.
From stdpp Require Import gmap strings list.

Open Scope Z_scope.
Set Warnings "-register-all".

(** ** Exceptions and results *)

Inductive exn :=
  | AssertionError
  | TypeError
  | ValueError
  | ZeroDivisionError
  | OverflowError
  | AttributeError
  | UnboundLocalError
  | IndexError
  | ImportError.

Inductive result (A : Type) :=
  | Ok (a : A)
  | Raise (e : exn).
Arguments Ok {A} a.
Arguments Raise {A} e.

#[global] Instance result_ret : MRet result := fun _ a => Ok a.
#[global] Instance result_bind : MBind result := fun _ _ f m =>
  match m with
  | Ok a => f a
  | Raise e => Raise e
  end.
#[global] Instance result_fmap : FMap result := fun _ _ f m =>
  match m with
  | Ok a => Ok (f a)
  | Raise e => Raise e
  end.

(** [assert b] *)
Definition assert (b : bool) : result unit :=
  if b then Ok () else Raise AssertionError.

(** ** Python floats *)

Module PyFloat.

(** The integer part of [m * 2 ^ e], for a mantissa [m] and an exponent [e]. *)
Definition magnitude (m : positive) (e : Z) : Z :=
  match e with
  | Z0 => Zpos m
  | Zpos p => Zpos m * Zpos (2 ^ p)
  | Zneg p => Zpos m / Zpos (2 ^ p)
  end.

(** [int(x)] for a float [x]: the integer part, rounded toward zero;
    [OverflowError] on an infinity, [ValueError] on a NaN. *)
Definition int (x : float) : result Z :=
  match Prim2SF x with
  | S754_zero _ => Ok 0
  | S754_finite s m e => Ok (if s then - magnitude m e else magnitude m e)
  | S754_infinity _ => Raise OverflowError
  | S754_nan => Raise ValueError
  end.

(** [x / y] on floats: Python raises on a zero divisor (of either sign). *)
Definition truediv (x y : float) : result float :=
  if (y =? 0)%float then Raise ZeroDivisionError else Ok (x / y)%float.

(** The rational a finite float denotes. *)
Definition abs_value (m : positive) (e : Z) : Q :=
  match e with
  | Z0 => inject_Z (Zpos m)
  | Zpos p => inject_Z (Zpos m * Zpos (2 ^ p))
  | Zneg p => Zpos m # (2 ^ p)
  end.

Definition value (x : float) : option Q :=
  match Prim2SF x with
  | S754_zero _ => Some 0%Q
  | S754_finite s m e => Some (if s then (- abs_value m e)%Q else abs_value m e)
  | _ => None
  end.

(** [m] is [q] with its fractional part dropped. *)
Definition truncates (q : Q) (m : Z) : Prop :=
  ((0 <= q)%Q -> (inject_Z m <= q)%Q /\ (q < inject_Z (m + 1))%Q) /\
  ((q <= 0)%Q -> (inject_Z (m - 1) < q)%Q /\ (q <= inject_Z m)%Q).

(** [m] is an integer nearest to [q]. *)
Definition nearest (q : Q) (m : Z) : Prop :=
  (Qabs (q - inject_Z m) <= 1 # 2)%Q.

(** [round(q)]: to the nearest integer, a tie going to the even one. *)
Definition round (q : Q) : Z :=
  let f := Qfloor q in
  match (q - inject_Z f ?= 1 # 2)%Q with
  | Lt => f
  | Gt => f + 1
  | Eq => if Z.even f then f else f + 1
  end.

End PyFloat.

(** A float as a recording hands it out.  [get_sampling_frequency()] returns
    what the recording was given: a Python [float] or a [numpy.float64].
    Both are binary64 numbers with the same products, quotients and [int];
    they differ in dividing by zero. *)
Inductive float_kind := python_float | numpy_float64.

Record number := Number { kind_of : float_kind; float_of :> float }.

(** [x / y] for a Python float [x] and a divisor [y] of either kind: by a
    Python float as [PyFloat.truediv]; by a [numpy.float64] the quotient is
    a [numpy.float64] and follows IEEE 754, so that a zero divisor gives an
    infinity or a NaN (with a warning) and no exception. *)
Definition truediv_by (x : float) (y : number) : result float :=
  match kind_of y with
  | python_float => PyFloat.truediv x y
  | numpy_float64 => Ok (x / y)%float
  end.

(** ** Margins

    [int(margin_ms * sf / 1000.)], as both [FilterRecording.__init__] and
    [NotchFilterRecording.__init__] compute it. *)
Definition margin_samples (margin_ms sf : float) : result Z :=
  PyFloat.int (margin_ms * sf / 1000)%float.

(** The conversion as the specification words it:
    [round(margin_ms * sampling_frequency / 1000)]. *)
Definition spec_margin_samples (margin_ms sf : float) : option Z :=
  PyFloat.round <$> PyFloat.value (margin_ms * sf / 1000)%float.

(** ** numpy arrays

    A two-dimensional array, samples along axis 0 and channels along axis 1.
    The number of columns is kept beside the rows: an array of shape [(0, c)]
    still has [c] columns. *)

Inductive np_dtype := int16 | int32 | int64 | float32 | float64.

#[global] Instance np_dtype_eq_dec : EqDecision np_dtype.
Proof. solve_decision. Defined.

Record ndarray := NDArray { ncols : nat; rows : list (list float) }.

Definition nrows (x : ndarray) : nat := length (rows x).
Definition shape (x : ndarray) : nat * nat := (nrows x, ncols x).

(** [x] is an [n] by [c] array: [n] rows, each of [c] entries. *)
Definition has_shape (x : ndarray) (n c : nat) : Prop :=
  nrows x = n /\ ncols x = c /\ Forall (fun row => length row = c) (rows x).

(** A slice bound [i] of a sequence of length [len]: a negative bound counts
    from the end, and every bound is clipped to [0..len]. *)
Definition slice_bound (len i : Z) : Z :=
  if i <? 0 then Z.max 0 (i + len) else Z.min i len.

(** [l[start:stop]]; [stop = None] is an omitted bound, [l[start:]]. *)
Definition slice {A} (start : Z) (stop : option Z) (l : list A) : list A :=
  let len := Z.of_nat (length l) in
  let lo := slice_bound len start in
  let hi := from_option (slice_bound len) len stop in
  take (Z.to_nat (hi - lo)) (drop (Z.to_nat lo) l).

(** [x[start:stop, :]] *)
Definition slice_rows (start : Z) (stop : option Z) (x : ndarray) : ndarray :=
  NDArray (ncols x) (slice start stop (rows x)).

(** numpy's element cast, the one operation of numpy the module relies on. *)
Class Numpy := { cast : np_dtype -> float -> float }.

(** [x.astype(dtype)] *)
Definition astype `{Numpy} (dtype : np_dtype) (x : ndarray) : ndarray :=
  NDArray (ncols x) (map (map (cast dtype)) (rows x)).

(** ** Python values kept in parameter dictionaries *)

Inductive pyval :=
  | PNone
  | PBool (b : bool)
  | PInt (z : Z)
  | PFloat (f : float)
  | PStr (s : string)
  | PList (l : list pyval)
  | PDict (d : list (string * pyval)).

(** ** Filter parameters *)

(** [band]: "float or list" (docstring of [FilterRecording]). *)
Inductive band_t :=
  | BandFloat (f : float)
  | BandList (l : list float).

Module Band.

(** [len(band)] *)
Definition len (band : band_t) : result Z :=
  match band with
  | BandList l => Ok (Z.of_nat (length l))
  | BandFloat _ => Raise TypeError
  end.

(** [float(band)] *)
Definition to_float (band : band_t) : result float :=
  match band with
  | BandFloat f => Ok f
  | BandList _ => Raise TypeError
  end.

(** [[e / sf * 2 for e in band]] *)
Fixpoint normalize (l : list float) (sf : number) : result (list float) :=
  match l with
  | [] => Ok []
  | e :: l' =>
      q ← truediv_by e sf;
      r ← normalize l' sf;
      Ok ((q * 2)%float :: r)
  end.

Definition to_py (band : band_t) : pyval :=
  match band with
  | BandFloat f => PFloat f
  | BandList l => PList (PFloat <$> l)
  end.

End Band.

(** Filter coefficients: an array of second-order sections (one row of six
    numbers per section), or the pair [(b, a)] of numerator and denominator. *)
Inductive coeff_t :=
  | Sos (sections : list (list float))
  | Ba (b a : list float).

(** [b, a = coeff]: a pair unpacks to its components, an array to its rows
    when there are exactly two of them. *)
Definition unpack_pair (coeff : coeff_t) : result (list float * list float) :=
  match coeff with
  | Ba b a => Ok (b, a)
  | Sos [r1; r2] => Ok (r1, r2)
  | Sos _ => Raise ValueError
  end.

(** [scipy.signal], as far as the module calls it. *)
Class SciPySignal := {
  iirfilter (N : Z) (Wn : band_t) (analog : bool) (btype ftype output : string)
    : result coeff_t;
  iirnotch (w0 Q : float) : result (list float * list float);
  sosfiltfilt (sos : coeff_t) (x : ndarray) (axis : Z) : result ndarray;
  filtfilt (b a : list float) (x : ndarray) (axis : Z) : result ndarray
}.

(** ** Recordings and segments *)

(** A recording segment: what [get_chunk_with_margin] and the filter segment
    need of their parent. *)
Record Segment := {
  get_num_frames : Z;
  seg_get_traces (start_frame end_frame : Z) (channel_indices : list Z)
    : result ndarray
}.

(** The parent recording. *)
Record Recording := {
  get_sampling_frequency : number;
  get_dtype : np_dtype;
  _recording_segments : list Segment;
  to_dict : pyval
}.

(** Modelled from the spec: [get_chunk_with_margin] of [tools.py], which is
    not among the sources.  "left = max(0, start_frame - margin);
    actual_left_margin = start_frame - left.  right = min(total_frames,
    end_frame + margin); actual_right_margin = right - end_frame.  Fetch
    parent.get_traces(left, right, channel_indices)." *)
Definition get_chunk_with_margin (rec_segment : Segment)
    (start_frame end_frame : Z) (channel_indices : list Z) (margin : Z)
    : result (ndarray * Z * Z) :=
  let left := Z.max 0 (start_frame - margin) in
  let left_margin := start_frame - left in
  let right := Z.min (get_num_frames rec_segment) (end_frame + margin) in
  let right_margin := right - end_frame in
  traces_chunk ← seg_get_traces rec_segment left right channel_indices;
  Ok (traces_chunk, left_margin, right_margin).

(** Modelled from the spec: the contract of a segment (section 4.1), whose
    implementations are not among the sources.  "[get_traces(start_frame,
    end_frame, channel_indices)] with [0 <= start_frame <= end_frame <=
    get_num_frames()] and [channel_indices] a subset of valid channel
    positions (order-preserving, may repeat)" returns a buffer of
    [end_frame - start_frame] rows and one column per requested channel.
    Nothing is asked of the segment outside these requests: it may raise on
    a channel it does not have. *)
Definition Segment_contract (seg : Segment) (num_channels : nat) : Prop :=
  forall start_frame end_frame channel_indices,
    0 <= start_frame <= end_frame -> end_frame <= get_num_frames seg ->
    Forall (fun c => 0 <= c < Z.of_nat num_channels) channel_indices ->
    exists x, seg_get_traces seg start_frame end_frame channel_indices = Ok x /\
              has_shape x (Z.to_nat (end_frame - start_frame)) (length channel_indices).

(** *** FilterRecordingSegment *)

Record FilterRecordingSegment := {
  parent_recording_segment : Segment;
  coeff : coeff_t;
  filter_mode : string;
  margin : Z;
  dtype : np_dtype
}.

Module FilterRecordingSegment.

(** The [if filter_mode == 'sos' ... elif filter_mode == 'ba' ...] of
    [get_traces]: the value of the local [filtered_traces] afterwards, [None]
    when neither branch assigned it. *)
Definition filtered_traces `{SciPySignal} (self : FilterRecordingSegment)
    (traces_chunk : ndarray) : result (option ndarray) :=
  if bool_decide (filter_mode self = "sos") then
    Some <$> sosfiltfilt (coeff self) traces_chunk 0
  else if bool_decide (filter_mode self = "ba") then
    '(b, a) ← unpack_pair (coeff self);
    Some <$> filtfilt b a traces_chunk 0
  else Ok None.

(** Reading a local variable: unbound, it raises. *)
Definition read_local {A} (v : option A) : result A :=
  match v with
  | Some a => Ok a
  | None => Raise UnboundLocalError
  end.

(** The trimming step of [get_traces]. *)
Definition trim (filtered : ndarray) (left_margin right_margin : Z) : ndarray :=
  if 0 <? right_margin then slice_rows left_margin (Some (- right_margin)) filtered
  else slice_rows left_margin None filtered.

Definition get_traces `{Numpy, SciPySignal} (self : FilterRecordingSegment)
    (start_frame end_frame : Z) (channel_indices : list Z) : result ndarray :=
  '(traces_chunk, left_margin, right_margin) ←
    get_chunk_with_margin (parent_recording_segment self)
      start_frame end_frame channel_indices (margin self);
  assigned ← filtered_traces self traces_chunk;
  filtered ← read_local assigned;
  Ok (astype (dtype self) (trim filtered left_margin right_margin)).

End FilterRecordingSegment.

(** ** Objects under construction

    A filter recording, as an instance of [BasePreprocessor]: the attributes
    the constructors of this module set, directly or through the methods of
    the base class. *)

Record Preprocessor := {
  _parent_recording : option Recording;
  _dtype : option np_dtype;
  _annotations : gmap string pyval;
  _segments : list FilterRecordingSegment;
  _kwargs : gmap string pyval
}.

(** A fresh instance, before [__init__] runs. *)
Definition fresh : Preprocessor :=
  {| _parent_recording := None; _dtype := None; _annotations := ∅;
     _segments := []; _kwargs := ∅ |}.

(** A method body: it may update [self] and may raise; when it raises, [self]
    is left as it was at that point. *)
Definition method (A : Type) : Type := Preprocessor -> result A * Preprocessor.

#[global] Instance method_ret : MRet method := fun _ a self => (Ok a, self).
#[global] Instance method_bind : MBind method := fun _ _ f m self =>
  match m self with
  | (Ok a, self') => f a self'
  | (Raise e, self') => (Raise e, self')
  end.

(** A call that does not touch [self]. *)
Definition call {A} (r : result A) : method A := fun self => (r, self).


(** [for x in l: body(x)] *)
Fixpoint for_each {A} (l : list A) (body : A -> method unit) : method unit :=
  match l with
  | [] => mret ()
  | x :: l' => body x ≫= fun _ => for_each l' body
  end.

(** [Class(args)]: run [__init__] on a fresh instance; an exception leaves the
    caller without any instance. *)
Definition new (init : method unit) : result Preprocessor :=
  match init fresh with
  | (Ok _, self) => Ok self
  | (Raise e, _) => Raise e
  end.

Module BasePreprocessor.

(** Modelled from the spec: [BasePreprocessor.__init__] of
    [basepreprocessor.py], which is not among the sources.  "Output dtype:
    each derived segment carries a target numeric element type; if
    unspecified, inherited from the parent." *)
Definition __init__ (recording : Recording) (dtype : option np_dtype) : method unit :=
  fun self =>
    (Ok (),
     {| _parent_recording := Some recording;
        _dtype := Some (default (get_dtype recording) dtype);
        _annotations := _annotations self;
        _segments := _segments self;
        _kwargs := _kwargs self |}).

(** Modelled from the spec: [get_dtype] of the base recording, the element
    type set at initialisation. *)
Definition get_dtype : method np_dtype :=
  fun self =>
    (match _dtype self with Some d => Ok d | None => Raise AttributeError end, self).

(** Modelled from the spec: [annotate(key=value)] of the base recording,
    which records an annotation on the recording. *)
Definition annotate (key : string) (value : pyval) : method unit :=
  fun self =>
    (Ok (),
     {| _parent_recording := _parent_recording self;
        _dtype := _dtype self;
        _annotations := <[key := value]> (_annotations self);
        _segments := _segments self;
        _kwargs := _kwargs self |}).

(** Modelled from the spec: [add_recording_segment] of the base recording,
    which appends one segment to the ordered collection. *)
Definition add_recording_segment (segment : FilterRecordingSegment) : method unit :=
  fun self =>
    (Ok (),
     {| _parent_recording := _parent_recording self;
        _dtype := _dtype self;
        _annotations := _annotations self;
        _segments := _segments self ++ [segment];
        _kwargs := _kwargs self |}).

(** [self._kwargs = kwargs] *)
Definition set_kwargs (kwargs : gmap string pyval) : method unit :=
  fun self =>
    (Ok (),
     {| _parent_recording := _parent_recording self;
        _dtype := _dtype self;
        _annotations := _annotations self;
        _segments := _segments self;
        _kwargs := kwargs |}).

(** [self._kwargs.update(kwargs)] *)
Definition update_kwargs (kwargs : gmap string pyval) : method unit :=
  fun self => set_kwargs (kwargs ∪ _kwargs self) self.

End BasePreprocessor.

(** *** FilterRecording *)

Module FilterRecording.

(** The design frequencies [Wn], lines 57 to 61. *)
Definition Wn (band : band_t) (btype : string) (sf : number) : result band_t :=
  if bool_decide (btype ∈ ["bandpass"; "bandstop"]) then
    n ← Band.len band;
    _ ← assert (n =? 2);
    l ← match band with
        | BandList l => Band.normalize l sf
        | BandFloat _ => Raise TypeError
        end;
    Ok (BandList l)
  else
    f ← Band.to_float band;
    q ← truediv_by f sf;
    Ok (BandFloat (q * 2)%float).

Definition __init__ `{SciPySignal} (recording : Recording) (band : band_t)
    (btype : string) (filter_order : Z) (ftype filter_mode : string)
    (margin_ms : float) (dtype : option np_dtype) : method unit :=
  _ ← call (assert (bool_decide (btype ∈ ["bandpass"; "lowpass"; "highpass"; "bandstop"])));
  _ ← call (assert (bool_decide (filter_mode ∈ ["sos"; "ba"])));
  let sf := get_sampling_frequency recording in
  Wn ← call (Wn band btype sf);
  let N := filter_order in
  coeff ← call (iirfilter N Wn false btype ftype filter_mode);
  _ ← BasePreprocessor.__init__ recording dtype;
  dtype_base ← BasePreprocessor.get_dtype;
  _ ← BasePreprocessor.annotate "is_filtered" (PBool true);
  margin ← call (margin_samples margin_ms sf);
  _ ← for_each (_recording_segments recording) (fun parent_segment =>
        BasePreprocessor.add_recording_segment
          {| parent_recording_segment := parent_segment; coeff := coeff;
             filter_mode := filter_mode; margin := margin; dtype := dtype_base |});
  BasePreprocessor.set_kwargs
    (<["recording" := to_dict recording]>
     (<["band" := Band.to_py band]>
     (<["btype" := PStr btype]>
     (<["filter_order" := PInt filter_order]>
     (<["ftype" := PStr ftype]>
     (<["filter_mode" := PStr filter_mode]>
     (<["margin_ms" := PFloat margin_ms]> ∅))))))).

End FilterRecording.

(** [FilterRecording(recording, band, btype, ...)] *)
Definition FilterRecording `{SciPySignal} (recording : Recording) (band : band_t)
    (btype : string) (filter_order : Z) (ftype filter_mode : string)
    (margin_ms : float) (dtype : option np_dtype) : result Preprocessor :=
  new (FilterRecording.__init__ recording band btype filter_order ftype
         filter_mode margin_ms dtype).

(** Keyword arguments of [FilterRecording.__init__]; an absent keyword takes
    the default of the signature. *)
Record filter_kwargs := {
  kw_band : option band_t;
  kw_btype : option string;
  kw_filter_order : option Z;
  kw_ftype : option string;
  kw_filter_mode : option string;
  kw_margin_ms : option float;
  kw_dtype : option np_dtype
}.

(** [FilterRecording(recording, **kwargs)] *)
Definition FilterRecording_kw `{SciPySignal} (recording : Recording)
    (kwargs : filter_kwargs) : result Preprocessor :=
  FilterRecording recording
    (default (BandList [300; 6000]%float) (kw_band kwargs))
    (default "bandpass" (kw_btype kwargs))
    (default 5 (kw_filter_order kwargs))
    (default "butter" (kw_ftype kwargs))
    (default "sos" (kw_filter_mode kwargs))
    (default 5%float (kw_margin_ms kwargs))
    (kw_dtype kwargs).

(** *** BandpassFilterRecording *)

(** [**filter_kwargs]: the keywords of [FilterRecording.__init__] that
    [BandpassFilterRecording.__init__] does not pass itself. *)
Record design_kwargs := {
  dk_btype : option string;
  dk_filter_order : option Z;
  dk_ftype : option string;
  dk_filter_mode : option string
}.

Definition no_design_kwargs : design_kwargs :=
  {| dk_btype := None; dk_filter_order := None; dk_ftype := None;
     dk_filter_mode := None |}.

(** The keywords present, as a dictionary. *)
Definition design_kwargs_dict (k : design_kwargs) : gmap string pyval :=
  let put {A} (key : string) (f : A -> pyval) (v : option A) (d : gmap string pyval) :=
    match v with Some a => <[key := f a]> d | None => d end in
  put "btype" PStr (dk_btype k)
    (put "filter_order" PInt (dk_filter_order k)
       (put "ftype" PStr (dk_ftype k)
          (put "filter_mode" PStr (dk_filter_mode k) ∅))).

Module BandpassFilterRecording.

Definition __init__ `{SciPySignal} (recording : Recording)
    (freq_min freq_max margin_ms : float) (dtype : option np_dtype)
    (filter_kwargs : design_kwargs) : method unit :=
  _ ← FilterRecording.__init__ recording (BandList [freq_min; freq_max])
        (default "bandpass" (dk_btype filter_kwargs))
        (default 5 (dk_filter_order filter_kwargs))
        (default "butter" (dk_ftype filter_kwargs))
        (default "sos" (dk_filter_mode filter_kwargs))
        margin_ms dtype;
  _ ← BasePreprocessor.set_kwargs
        (<["recording" := to_dict recording]>
         (<["freq_min" := PFloat freq_min]>
         (<["freq_max" := PFloat freq_max]>
         (<["margin_ms" := PFloat margin_ms]> ∅))));
  BasePreprocessor.update_kwargs (design_kwargs_dict filter_kwargs).

End BandpassFilterRecording.

Definition BandpassFilterRecording `{SciPySignal} (recording : Recording)
    (freq_min freq_max margin_ms : float) (dtype : option np_dtype)
    (filter_kwargs : design_kwargs) : result Preprocessor :=
  new (BandpassFilterRecording.__init__ recording freq_min freq_max margin_ms
         dtype filter_kwargs).

(** *** NotchFilterRecording *)

Module NotchFilterRecording.

Definition __init__ `{SciPySignal} (recording : Recording) (freq q margin_ms : float)
    (dtype : option np_dtype) : method unit :=
  (* [float(...)] makes a Python float of the sampling frequency *)
  let fn := (0.5 * float_of (get_sampling_frequency recording))%float in
  w0 ← call (PyFloat.truediv freq fn);
  '(b, a) ← call (iirnotch w0 q);
  let coeff := Ba b a in
  _ ← BasePreprocessor.__init__ recording dtype;
  dtype_base ← BasePreprocessor.get_dtype;
  _ ← BasePreprocessor.annotate "is_filtered" (PBool true);
  let sf := get_sampling_frequency recording in
  margin ← call (margin_samples margin_ms sf);
  _ ← for_each (_recording_segments recording) (fun parent_segment =>
        BasePreprocessor.add_recording_segment
          {| parent_recording_segment := parent_segment; coeff := coeff;
             filter_mode := "ba"; margin := margin; dtype := dtype_base |});
  BasePreprocessor.set_kwargs
    (<["recording" := to_dict recording]>
     (<["freq" := PFloat freq]>
     (<["q" := PFloat q]>
     (<["margin_ms" := PFloat margin_ms]> ∅)))).

End NotchFilterRecording.

Definition NotchFilterRecording `{SciPySignal} (recording : Recording)
    (freq q margin_ms : float) (dtype : option np_dtype) : result Preprocessor :=
  new (NotchFilterRecording.__init__ recording freq q margin_ms dtype).

(** ** Functions for the API *)

(** The OpenCL backend, [filter_opencl.py], is not among the sources; the
    import and the constructor call are one collaborator. *)
Class OpenCL := {
  FilterOpenCLRecording : Recording -> filter_kwargs -> result Preprocessor
}.

(** [filter(recording, engine, **kwargs)]: the value returned, [None] when the
    function body ends without a [return]. *)
Definition filter `{SciPySignal, OpenCL} (recording : Recording) (engine : string)
    (kwargs : filter_kwargs) : result (option Preprocessor) :=
  if bool_decide (engine = "scipy") then
    Some <$> FilterRecording_kw recording kwargs
  else if bool_decide (engine = "opencl") then
    Some <$> FilterOpenCLRecording recording kwargs
  else Ok None.

Definition bandpass_filter `{SciPySignal} := BandpassFilterRecording.
Definition notch_filter `{SciPySignal} := NotchFilterRecording.

(** ** What the constructors build

    The recording a constructor of this module leaves behind when it succeeds:
    the parent, the element type, the [is_filtered] annotation, one filter
    segment per segment of the parent, all with the same coefficients, tag,
    margin and element type, and the retained parameters. *)
Definition built (recording : Recording) (dtype : option np_dtype)
    (coeff : coeff_t) (filter_mode : string) (margin : Z)
    (kwargs : gmap string pyval) : Preprocessor :=
  let dtype_base := default (get_dtype recording) dtype in
  {| _parent_recording := Some recording;
     _dtype := Some dtype_base;
     _annotations := <["is_filtered" := PBool true]> ∅;
     _segments :=
       (fun parent_segment =>
          {| parent_recording_segment := parent_segment; coeff := coeff;
             filter_mode := filter_mode; margin := margin; dtype := dtype_base |})
       <$> _recording_segments recording;
     _kwargs := kwargs |}.

(** A recording marked as filtered whose element type, and that of each of
    its segments, is [d]. *)
Definition filtered_as (o : Preprocessor) (d : np_dtype) : Prop :=
  _annotations o !! "is_filtered" = Some (PBool true) /\
  BasePreprocessor.get_dtype o = (Ok d, o) /\
  Forall (fun seg => dtype seg = d) (_segments o).

(** The parameters each variant retains. *)
Definition FilterRecording_kwargs (recording : Recording) (band : band_t)
    (btype : string) (filter_order : Z) (ftype filter_mode : string)
    (margin_ms : float) : gmap string pyval :=
  <["recording" := to_dict recording]>
  (<["band" := Band.to_py band]>
  (<["btype" := PStr btype]>
  (<["filter_order" := PInt filter_order]>
  (<["ftype" := PStr ftype]>
  (<["filter_mode" := PStr filter_mode]>
  (<["margin_ms" := PFloat margin_ms]> ∅)))))).

Definition BandpassFilterRecording_kwargs (recording : Recording)
    (freq_min freq_max margin_ms : float) (filter_kwargs : design_kwargs)
    : gmap string pyval :=
  design_kwargs_dict filter_kwargs ∪
  <["recording" := to_dict recording]>
  (<["freq_min" := PFloat freq_min]>
  (<["freq_max" := PFloat freq_max]>
  (<["margin_ms" := PFloat margin_ms]> ∅))).

Definition NotchFilterRecording_kwargs (recording : Recording)
    (freq q margin_ms : float) : gmap string pyval :=
  <["recording" := to_dict recording]>
  (<["freq" := PFloat freq]>
  (<["q" := PFloat q]>
  (<["margin_ms" := PFloat margin_ms]> ∅))).

(** ** Reconstruction from the retained parameters

    Modelled from the spec: the loader of a persisted description is not among
    the sources.  "Constructing a filter variant, extracting its parameter
    set, and reconstructing a new instance from that parameter set against
    the same parent": the class is called on the parent with the remaining
    entries of [_kwargs] as keywords. *)

Module Kwargs.

Definition as_float (v : pyval) : result float :=
  match v with PFloat f => Ok f | _ => Raise TypeError end.

Definition as_int (v : pyval) : result Z :=
  match v with PInt z => Ok z | _ => Raise TypeError end.

Definition as_str (v : pyval) : result string :=
  match v with PStr s => Ok s | _ => Raise TypeError end.

Fixpoint as_floats (l : list pyval) : result (list float) :=
  match l with
  | [] => Ok []
  | v :: l' => f ← as_float v; r ← as_floats l'; Ok (f :: r)
  end.

Definition as_band (v : pyval) : result band_t :=
  match v with
  | PFloat f => Ok (BandFloat f)
  | PList l => BandList <$> as_floats l
  | _ => Raise TypeError
  end.

Definition as_dtype (v : pyval) : result (option np_dtype) :=
  match v with
  | PNone => Ok None
  | PStr "int16" => Ok (Some int16)
  | PStr "int32" => Ok (Some int32)
  | PStr "int64" => Ok (Some int64)
  | PStr "float32" => Ok (Some float32)
  | PStr "float64" => Ok (Some float64)
  | _ => Raise TypeError
  end.

(** The keyword [key] when present. *)
Definition arg {A} (parse : pyval -> result A) (kwargs : gmap string pyval)
    (key : string) : result (option A) :=
  match kwargs !! key with
  | Some v => Some <$> parse v
  | None => Ok None
  end.

(** A keyword no parameter is named after is a [TypeError]. *)
Definition check_names (kwargs : gmap string pyval) (names : gset string)
    : result unit :=
  if bool_decide (dom kwargs ⊆ names) then Ok () else Raise TypeError.

(** The keywords left once the parent description is taken out. *)
Definition keywords (kwargs : gmap string pyval) : gmap string pyval :=
  delete "recording" kwargs.

End Kwargs.

(** Modelled from the spec: rebuilding a [FilterRecording] from its parameter
    set, [FilterRecording(recording, **kwargs)] with the parent description
    taken out of [kwargs]. *)
Definition FilterRecording_from_kwargs `{SciPySignal} (recording : Recording)
    (kwargs : gmap string pyval) : result Preprocessor :=
  let kw := Kwargs.keywords kwargs in
  _ ← Kwargs.check_names kw
        {["band"; "btype"; "filter_order"; "ftype"; "filter_mode"; "margin_ms"; "dtype"]};
  band ← Kwargs.arg Kwargs.as_band kw "band";
  btype ← Kwargs.arg Kwargs.as_str kw "btype";
  filter_order ← Kwargs.arg Kwargs.as_int kw "filter_order";
  ftype ← Kwargs.arg Kwargs.as_str kw "ftype";
  filter_mode ← Kwargs.arg Kwargs.as_str kw "filter_mode";
  margin_ms ← Kwargs.arg Kwargs.as_float kw "margin_ms";
  dtype ← Kwargs.arg Kwargs.as_dtype kw "dtype";
  FilterRecording_kw recording
    {| kw_band := band; kw_btype := btype; kw_filter_order := filter_order;
       kw_ftype := ftype; kw_filter_mode := filter_mode;
       kw_margin_ms := margin_ms; kw_dtype := mjoin dtype |}.

(** Modelled from the spec: rebuilding a [BandpassFilterRecording] from its
    parameter set. *)
Definition BandpassFilterRecording_from_kwargs `{SciPySignal} (recording : Recording)
    (kwargs : gmap string pyval) : result Preprocessor :=
  let kw := Kwargs.keywords kwargs in
  _ ← Kwargs.check_names kw
        {["freq_min"; "freq_max"; "margin_ms"; "dtype";
          "btype"; "filter_order"; "ftype"; "filter_mode"]};
  freq_min ← Kwargs.arg Kwargs.as_float kw "freq_min";
  freq_max ← Kwargs.arg Kwargs.as_float kw "freq_max";
  margin_ms ← Kwargs.arg Kwargs.as_float kw "margin_ms";
  dtype ← Kwargs.arg Kwargs.as_dtype kw "dtype";
  btype ← Kwargs.arg Kwargs.as_str kw "btype";
  filter_order ← Kwargs.arg Kwargs.as_int kw "filter_order";
  ftype ← Kwargs.arg Kwargs.as_str kw "ftype";
  filter_mode ← Kwargs.arg Kwargs.as_str kw "filter_mode";
  BandpassFilterRecording recording
    (default 300%float freq_min) (default 6000%float freq_max)
    (default 5%float margin_ms) (mjoin dtype)
    {| dk_btype := btype; dk_filter_order := filter_order; dk_ftype := ftype;
       dk_filter_mode := filter_mode |}.

(** Modelled from the spec: rebuilding a [NotchFilterRecording] from its
    parameter set. *)
Definition NotchFilterRecording_from_kwargs `{SciPySignal} (recording : Recording)
    (kwargs : gmap string pyval) : result Preprocessor :=
  let kw := Kwargs.keywords kwargs in
  _ ← Kwargs.check_names kw {["freq"; "q"; "margin_ms"; "dtype"]};
  freq ← Kwargs.arg Kwargs.as_float kw "freq";
  q ← Kwargs.arg Kwargs.as_float kw "q";
  margin_ms ← Kwargs.arg Kwargs.as_float kw "margin_ms";
  dtype ← Kwargs.arg Kwargs.as_dtype kw "dtype";
  NotchFilterRecording recording
    (default 3000%float freq) (default 30%float q)
    (default 5%float margin_ms) (mjoin dtype).

(** ** A test bench

    Stand-ins for the collaborators, small enough to evaluate: an in-memory
    parent segment, filters that are pure gains, and a cast that drops the
    fractional part for the integer types. *)

Module Bench.

(** [traces[start:end, channel_indices]] over rows held in memory. *)
Definition array_segment (traces : list (list float)) : Segment :=
  {| get_num_frames := Z.of_nat (length traces);
     seg_get_traces start_frame end_frame channel_indices :=
       Ok (NDArray (length channel_indices)
             ((fun row => (fun c => nth (Z.to_nat c) row 0%float) <$> channel_indices)
                <$> slice start_frame (Some end_frame) traces)) |}.

(** Twelve frames of two channels. *)
Definition ramp : list (list float) :=
  [ [0; 100]; [1; 101]; [2; 102]; [3; 103]; [4; 104]; [5; 105];
    [6; 106]; [7; 107]; [8; 108]; [9; 109]; [10; 110]; [11; 111] ]%float.

Definition recording (sf : float) (dtype : np_dtype) : Recording :=
  {| get_sampling_frequency := Number python_float sf;
     get_dtype := dtype;
     _recording_segments := [array_segment ramp; array_segment (take 6 ramp)];
     to_dict := PDict [("class", PStr "NumpyRecording")] |}.

(** The same recording when its sampling frequency is a [numpy.float64]. *)
Definition numpy_recording (sf : float) (dtype : np_dtype) : Recording :=
  {| get_sampling_frequency := Number numpy_float64 sf;
     get_dtype := dtype;
     _recording_segments := [array_segment ramp; array_segment (take 6 ramp)];
     to_dict := PDict [("class", PStr "NumpyRecording")] |}.

(** Forward then backward through a gain [g]: a gain [g * g].  As scipy does,
    the filters refuse an input not longer than their padding. *)
Definition gain_twice (g : float) (padlen : nat) (x : ndarray) : result ndarray :=
  if bool_decide (nrows x ≤ padlen)%nat then Raise ValueError
  else Ok (NDArray (ncols x) (map (map (fun v => g * g * v)%float) (rows x))).

Definition scipy : SciPySignal :=
  {| iirfilter N Wn analog btype ftype output :=
       if bool_decide (output = "sos") then Ok (Sos [[0.5; 0; 0; 1; 0; 0]%float])
       else if bool_decide (output = "ba") then Ok (Ba [0.5%float] [1%float])
       else Raise ValueError;
     iirnotch w0 Q := Ok ([0.5%float], [1%float]);
     sosfiltfilt sos x axis :=
       match sos with
       | Sos [[g; _; _; _; _; _]] => gain_twice g 6 x
       | _ => Raise ValueError
       end;
     filtfilt b a x axis :=
       match b, a with
       | [g], [_] => gain_twice g 3 x
       | _, _ => Raise ValueError
       end |}.

Definition of_Z (z : Z) : float :=
  if z <? 0 then (- of_uint63 (Uint63.of_Z (- z)))%float
  else of_uint63 (Uint63.of_Z z).

Definition numpy : Numpy :=
  {| cast dtype x :=
       match dtype with
       | float32 | float64 => x
       | _ => match PyFloat.int x with Ok z => of_Z z | Raise _ => 0%float end
       end |}.

(** No OpenCL device on the bench. *)
Definition opencl : OpenCL :=
  {| FilterOpenCLRecording _ _ := Raise ImportError |}.

(** An in-memory segment of [num_channels] channels that refuses a channel
    it does not have. *)
Definition checked_segment (num_channels : nat) (traces : list (list float)) : Segment :=
  {| get_num_frames := Z.of_nat (length traces);
     seg_get_traces start_frame end_frame channel_indices :=
       if forallb (fun c => (0 <=? c) && (c <? Z.of_nat num_channels)) channel_indices
       then seg_get_traces (array_segment traces) start_frame end_frame channel_indices
       else Raise IndexError |}.

(** Filter segments over the checked ramp: one with a margin of two samples,
    one whose margin is negative. *)
Definition checked_sos_segment : FilterRecordingSegment :=
  {| parent_recording_segment := checked_segment 2 ramp;
     coeff := Sos [[0.5; 0; 0; 1; 0; 0]%float];
     filter_mode := "sos"; margin := 2; dtype := float64 |}.

Definition negative_margin_segment : FilterRecordingSegment :=
  {| parent_recording_segment := checked_segment 2 ramp;
     coeff := Sos [[0.5; 0; 0; 1; 0; 0]%float];
     filter_mode := "sos"; margin := -1; dtype := float64 |}.

(** A segment filtering the ramp through second-order sections. *)
Definition sos_segment : FilterRecordingSegment :=
  {| parent_recording_segment := array_segment ramp;
     coeff := Sos [[0.5; 0; 0; 1; 0; 0]%float];
     filter_mode := "sos"; margin := 2; dtype := float64 |}.

(** The same through a numerator and a denominator. *)
Definition ba_segment : FilterRecordingSegment :=
  {| parent_recording_segment := array_segment ramp;
     coeff := Ba [0.5%float] [1%float];
     filter_mode := "ba"; margin := 2; dtype := int16 |}.

(** A parent sampled at 30 kHz, of 16-bit integers. *)
Definition parent : Recording := recording 30000 int16.

(** The three variants over [parent], asked for 64-bit floats, as their
    constructors leave them, and as the same arguments leave them when no
    element type is asked for. *)
Definition generic (dtype : option np_dtype) : Preprocessor :=
  built parent dtype (Sos [[0.5; 0; 0; 1; 0; 0]%float]) "sos" 150
    (FilterRecording_kwargs parent (BandList [300; 6000]%float) "bandpass" 5
       "butter" "sos" 5).

Definition bandpass (dtype : option np_dtype) : Preprocessor :=
  built parent dtype (Sos [[0.5; 0; 0; 1; 0; 0]%float]) "sos" 150
    (BandpassFilterRecording_kwargs parent 300 6000 5 no_design_kwargs).

Definition notch (dtype : option np_dtype) : Preprocessor :=
  built parent dtype (Ba [0.5%float] [1%float]) "ba" 150
    (NotchFilterRecording_kwargs parent 3000 30 5).

Definition five_rows : ndarray := NDArray 1 [[1]; [2]; [3]; [4]; [5]]%float.

Definition no_kwargs : filter_kwargs :=
  {| kw_band := None; kw_btype := None; kw_filter_order := None;
     kw_ftype := None; kw_filter_mode := None; kw_margin_ms := None;
     kw_dtype := None |}.

(** A design service that, as scipy does, refuses a critical frequency
    outside the open interval from 0 to 1. *)
Definition critical (w : float) : bool := ((0 <? w) && (w <? 1))%float.

Definition strict_scipy : SciPySignal :=
  {| iirfilter N Wn analog btype ftype output :=
       let feasible :=
         match Wn with
         | BandFloat w => critical w
         | BandList l => forallb critical l
         end in
       if feasible then @iirfilter scipy N Wn analog btype ftype output
       else Raise ValueError;
     iirnotch w0 Q :=
       if critical w0 then @iirnotch scipy w0 Q else Raise ValueError;
     sosfiltfilt := @sosfiltfilt scipy;
     filtfilt := @filtfilt scipy |}.

(** A segment whose tag names no representation. *)
Definition zpk_segment : FilterRecordingSegment :=
  {| parent_recording_segment := array_segment ramp;
     coeff := Ba [0.5%float] [1%float];
     filter_mode := "zpk"; margin := 2; dtype := float64 |}.

(** A parent whose segments cannot be read, and a filter segment over it. *)
Definition unreadable : Segment :=
  {| get_num_frames := 12;
     seg_get_traces _ _ _ := Raise IndexError |}.

Definition unreadable_segment : FilterRecordingSegment :=
  {| parent_recording_segment := unreadable;
     coeff := Ba [0.5%float] [1%float];
     filter_mode := "ba"; margin := 2; dtype := float64 |}.

(** A segment tagged ['ba'] that holds one second-order section. *)
Definition mistagged_segment : FilterRecordingSegment :=
  {| parent_recording_segment := array_segment ramp;
     coeff := Sos [[0.5; 0; 0; 1; 0; 0]%float];
     filter_mode := "ba"; margin := 2; dtype := float64 |}.

End Bench.

(** * Properties *)

(** A decidable proposition on closed terms, by evaluation. *)
Ltac by_decide := apply (bool_decide_unpack _); vm_compute; exact I.

(** ** Results *)

Lemma bind_ok {A B} (m : result A) (f : A -> result B) (b : B) :
  m ≫= f = Ok b -> exists a, m = Ok a /\ f a = Ok b.
Proof. destruct m as [a|e]; [eauto | discriminate]. Qed.

Lemma fmap_ok {A B} (f : A -> B) (m : result A) (b : B) :
  f <$> m = Ok b -> exists a, m = Ok a /\ b = f a.
Proof. destruct m as [a|e]; [intros [= <-]; eauto | discriminate]. Qed.

(** ** Slices and the trimming step *)

Section Slices.
Context {A : Type}.
Implicit Types l : list A.

Lemma slice_bound_in_range len i : 0 <= i <= len -> slice_bound len i = i.
Proof. intros Hi. unfold slice_bound. destruct (Z.ltb_spec i 0); lia. Qed.

Lemma slice_bound_from_end len i :
  0 < i <= len -> slice_bound len (- i) = len - i.
Proof. intros Hi. unfold slice_bound. destruct (Z.ltb_spec (- i) 0); lia. Qed.

(** [l[lo:-hi]] with [hi > 0] keeps what lies between the two cuts. *)
Lemma slice_from_end l lo hi :
  0 <= lo -> 0 < hi -> lo + hi <= Z.of_nat (length l) ->
  slice lo (Some (- hi)) l =
  take (Z.to_nat (Z.of_nat (length l) - lo - hi)) (drop (Z.to_nat lo) l).
Proof.
  intros Hlo Hhi Hlen. unfold slice. cbn [from_option].
  rewrite (slice_bound_in_range _ lo), (slice_bound_from_end _ hi) by lia.
  f_equal. lia.
Qed.

(** [l[lo:]] keeps everything after the cut. *)
Lemma slice_open l lo :
  0 <= lo <= Z.of_nat (length l) ->
  slice lo None l = drop (Z.to_nat lo) l.
Proof.
  intros Hlo. unfold slice. cbn [from_option].
  rewrite (slice_bound_in_range _ lo) by lia.
  apply take_ge. rewrite length_drop. lia.
Qed.

(** [l[lo:-0]] is [l[lo:0]]: nothing is left. *)
Lemma slice_to_minus_zero l lo : 0 <= lo -> slice lo (Some (- 0)) l = [].
Proof.
  intros Hlo. unfold slice. cbn [from_option].
  replace (slice_bound (Z.of_nat (length l)) (- 0)) with 0
    by (change (- 0) with 0; unfold slice_bound; rewrite Z.ltb_irrefl; lia).
  assert (0 <= slice_bound (Z.of_nat (length l)) lo)
    by (unfold slice_bound; destruct (Z.ltb_spec lo 0); lia).
  replace (Z.to_nat (0 - slice_bound (Z.of_nat (length l)) lo)) with 0%nat by lia.
  reflexivity.
Qed.

(** Cutting [lo] elements off the front and [hi] off the back. *)
Lemma cut_both_ends l (lo hi : nat) :
  (lo + hi <= length l)%nat ->
  l = take lo l ++ take (length l - lo - hi) (drop lo l) ++ drop (length l - hi) l.
Proof.
  intros Hlen.
  rewrite <- (take_drop lo l) at 1. f_equal.
  rewrite <- (take_drop (length l - lo - hi) (drop lo l)) at 1. f_equal.
  rewrite drop_drop. f_equal. lia.
Qed.
End Slices.

Lemma trim_rows (x : ndarray) (left_margin right_margin : Z) :
  0 <= left_margin -> 0 <= right_margin ->
  left_margin + right_margin <= Z.of_nat (nrows x) ->
  rows (FilterRecordingSegment.trim x left_margin right_margin) =
  take (nrows x - Z.to_nat left_margin - Z.to_nat right_margin)
       (drop (Z.to_nat left_margin) (rows x)).
Proof.
  intros Hl Hr Hn. unfold FilterRecordingSegment.trim, nrows in *.
  destruct (Z.ltb_spec 0 right_margin) as [Hpos|Hzero]; cbn [slice_rows rows].
  - rewrite slice_from_end by lia. f_equal. lia.
  - rewrite slice_open by lia.
    symmetry. apply take_ge. rewrite length_drop. lia.
Qed.

Lemma trim_ncols (x : ndarray) (left_margin right_margin : Z) :
  ncols (FilterRecordingSegment.trim x left_margin right_margin) = ncols x.
Proof. unfold FilterRecordingSegment.trim. destruct (0 <? right_margin); reflexivity. Qed.

Lemma astype_nrows `{Numpy} (d : np_dtype) (x : ndarray) : nrows (astype d x) = nrows x.
Proof. unfold nrows, astype. cbn. by rewrite length_map. Qed.

Lemma astype_shape `{Numpy} (d : np_dtype) (x : ndarray) : shape (astype d x) = shape x.
Proof. unfold shape. by rewrite astype_nrows. Qed.

Lemma trim_nrows (x : ndarray) (left_margin right_margin : Z) :
  0 <= left_margin -> 0 <= right_margin ->
  left_margin + right_margin <= Z.of_nat (nrows x) ->
  Z.of_nat (nrows (FilterRecordingSegment.trim x left_margin right_margin)) =
    Z.of_nat (nrows x) - left_margin - right_margin.
Proof.
  intros Hl Hr Hn. unfold nrows at 1. rewrite trim_rows by assumption.
  rewrite length_take, length_drop. unfold nrows in *. lia.
Qed.

(** C9: for a buffer of [n] rows and margins [left_margin, right_margin >= 0]
    with [left_margin + right_margin <= n], the trimming step of [get_traces]
    returns exactly [n - left_margin - right_margin] rows.  This covers
    [right_margin = 0], where the code slices [[left_margin:]]; the slice
    [[left_margin:-0]] it avoids there would be empty. *)
Theorem trim_length (x : ndarray) (left_margin right_margin : Z) :
  0 <= left_margin -> 0 <= right_margin ->
  left_margin + right_margin <= Z.of_nat (nrows x) ->
  Z.of_nat (nrows (FilterRecordingSegment.trim x left_margin right_margin)) =
    Z.of_nat (nrows x) - left_margin - right_margin /\
  (right_margin = 0 ->
   FilterRecordingSegment.trim x left_margin right_margin = slice_rows left_margin None x /\
   rows (slice_rows left_margin (Some (- right_margin)) x) = []).
Proof.
  intros Hl Hr Hn. split.
  - by apply trim_nrows.
  - intros ->. split; [reflexivity|].
    cbn [slice_rows rows]. by apply slice_to_minus_zero.
Qed.

Lemma trim_length_witness :
  Z.of_nat (nrows (FilterRecordingSegment.trim Bench.five_rows 2 0)) = 3 /\
  FilterRecordingSegment.trim Bench.five_rows 2 0 = slice_rows 2 None Bench.five_rows /\
  rows (slice_rows 2 (Some (- 0)) Bench.five_rows) = [].
Proof.
  destruct (trim_length Bench.five_rows 2 0) as [Hlen Hzero];
    [lia | lia | vm_compute; discriminate |].
  destruct (Hzero eq_refl) as [Hopen Hempty].
  split; [exact Hlen | split; [exact Hopen | exact Hempty]].
Defined.

(** ** The padded chunk *)

Section Chunk.
Variables (seg : Segment) (num_channels : nat).
Variables (start_frame end_frame margin : Z) (channel_indices : list Z).
Hypothesis contract : Segment_contract seg num_channels.
Hypothesis valid_channels :
  Forall (fun c => 0 <= c < Z.of_nat num_channels) channel_indices.
Hypothesis margin_nonneg : 0 <= margin.
Hypothesis valid_range : 0 <= start_frame <= end_frame.
Hypothesis in_segment : end_frame <= get_num_frames seg.

(** The extractor serves every valid request; the margins it reports are
    clipped to what the segment has, and add up with the request to the
    length of the buffer. *)
Lemma get_chunk_with_margin_spec :
  exists chunk left_margin right_margin,
    get_chunk_with_margin seg start_frame end_frame channel_indices margin
      = Ok (chunk, left_margin, right_margin) /\
    left_margin = Z.min margin start_frame /\
    right_margin = Z.min margin (get_num_frames seg - end_frame) /\
    has_shape chunk
      (Z.to_nat (left_margin + (end_frame - start_frame) + right_margin))
      (length channel_indices).
Proof.
  destruct (contract (Z.max 0 (start_frame - margin))
              (Z.min (get_num_frames seg) (end_frame + margin)) channel_indices)
    as (chunk & Hget & Hshape); [lia | lia | exact valid_channels |].
  exists chunk, (start_frame - Z.max 0 (start_frame - margin)),
    (Z.min (get_num_frames seg) (end_frame + margin) - end_frame).
  unfold get_chunk_with_margin. rewrite Hget. cbn.
  split; [reflexivity|]. split; [lia|]. split; [lia|].
  replace (Z.to_nat _) with
    (Z.to_nat (Z.min (get_num_frames seg) (end_frame + margin)
               - Z.max 0 (start_frame - margin))) by lia.
  exact Hshape.
Qed.
End Chunk.

Lemma slice_length {A} (l : list A) (lo hi : Z) :
  0 <= lo <= hi -> hi <= Z.of_nat (length l) ->
  length (slice lo (Some hi) l) = Z.to_nat (hi - lo).
Proof.
  intros Hlo Hhi. unfold slice. cbn [from_option].
  rewrite (slice_bound_in_range _ lo), (slice_bound_in_range _ hi) by lia.
  rewrite length_take, length_drop. lia.
Qed.

(** The in-memory segments honour the contract, the checked one among
    them. *)
Lemma array_segment_serves (traces : list (list float)) start_frame end_frame
    channel_indices :
  0 <= start_frame <= end_frame -> end_frame <= Z.of_nat (length traces) ->
  exists x,
    seg_get_traces (Bench.array_segment traces) start_frame end_frame
      channel_indices = Ok x /\
    has_shape x (Z.to_nat (end_frame - start_frame)) (length channel_indices).
Proof.
  intros Hab Hb. eexists. split; [reflexivity|].
  split; [|split]; cbn.
  - unfold nrows. cbn. by rewrite length_fmap, slice_length.
  - reflexivity.
  - apply Forall_fmap, Forall_forall. intros row _. cbn. by rewrite length_fmap.
Qed.

Lemma array_segment_contract (traces : list (list float)) (num_channels : nat) :
  Segment_contract (Bench.array_segment traces) num_channels.
Proof. intros a b ch Hab Hb _. by apply array_segment_serves. Qed.

Lemma checked_segment_contract (traces : list (list float)) (num_channels : nat) :
  Segment_contract (Bench.checked_segment num_channels traces) num_channels.
Proof.
  intros a b ch Hab Hb Hch. cbn [seg_get_traces Bench.checked_segment].
  replace (forallb _ ch) with true; [by apply array_segment_serves|].
  symmetry. apply forallb_forall. intros c Hc.
  rewrite Forall_forall in Hch. specialize (Hch c).
  rewrite <- list_elem_of_In in Hc. specialize (Hch Hc).
  apply andb_true_intro. split; [apply Z.leb_le | apply Z.ltb_lt]; lia.
Qed.

(** Trimming and casting keep the rows whole. *)
Lemma trim_has_shape (x : ndarray) (n c : nat) (left_margin right_margin : Z) :
  has_shape x n c ->
  0 <= left_margin -> 0 <= right_margin ->
  left_margin + right_margin <= Z.of_nat n ->
  has_shape (FilterRecordingSegment.trim x left_margin right_margin)
    (n - Z.to_nat left_margin - Z.to_nat right_margin) c.
Proof.
  intros (Hn & Hc & Hrows) Hl Hr Hfit. subst n.
  split; [|split].
  - pose proof (trim_nrows x left_margin right_margin Hl Hr Hfit). lia.
  - by rewrite trim_ncols.
  - rewrite trim_rows by assumption. by apply Forall_take, Forall_drop.
Qed.

Lemma astype_has_shape `{Numpy} (d : np_dtype) (x : ndarray) (n c : nat) :
  has_shape x n c -> has_shape (astype d x) n c.
Proof.
  intros (Hn & Hc & Hrows). split; [|split].
  - by rewrite astype_nrows.
  - exact Hc.
  - cbn. apply Forall_fmap. eapply Forall_impl; [exact Hrows|].
    intros row Hrow. cbn. by rewrite length_map.
Qed.

(** ** The filter segment *)

Section Engine.
Context `{Numpy, SciPySignal}.
Import FilterRecordingSegment.

(** [get_traces] once the padded chunk is known. *)
Lemma get_traces_chunk self start_frame end_frame channel_indices
    chunk left_margin right_margin :
  get_chunk_with_margin (parent_recording_segment self) start_frame end_frame
    channel_indices (margin self) = Ok (chunk, left_margin, right_margin) ->
  get_traces self start_frame end_frame channel_indices =
    assigned ← filtered_traces self chunk;
    filtered ← read_local assigned;
    Ok (astype (dtype self) (trim filtered left_margin right_margin)).
Proof. intros Hchunk. unfold get_traces. rewrite Hchunk. reflexivity. Qed.

(** C5, as the code has it: on a segment whose margin is not negative and
    whose parent honours the segment contract, a request with
    [0 <= start_frame <= end_frame <= num_frames] and valid channels always
    gets its padded chunk; and whenever the zero-phase filter returns a
    buffer shaped like that chunk, [get_traces] returns that buffer without
    its first [left_margin] and its last [right_margin] rows, cast to the
    segment's dtype: [end_frame - start_frame] rows of
    [len(channel_indices)] entries each. *)
Theorem get_traces_shape self num_channels start_frame end_frame channel_indices :
  Segment_contract (parent_recording_segment self) num_channels ->
  Forall (fun c => 0 <= c < Z.of_nat num_channels) channel_indices ->
  0 <= margin self ->
  0 <= start_frame <= end_frame ->
  end_frame <= get_num_frames (parent_recording_segment self) ->
  exists chunk left_margin right_margin,
    get_chunk_with_margin (parent_recording_segment self) start_frame end_frame
      channel_indices (margin self) = Ok (chunk, left_margin, right_margin) /\
    forall y,
      filtered_traces self chunk = Ok (Some y) ->
      has_shape y (nrows chunk) (ncols chunk) ->
      exists front kept back out,
        get_traces self start_frame end_frame channel_indices = Ok out /\
        rows y = front ++ kept ++ back /\
        Z.of_nat (length front) = left_margin /\
        Z.of_nat (length back) = right_margin /\
        out = astype (dtype self) (NDArray (ncols y) kept) /\
        has_shape out (Z.to_nat (end_frame - start_frame)) (length channel_indices).
Proof.
  intros Hcontract Hchannels Hmargin Hrange Hend.
  destruct (get_chunk_with_margin_spec _ _ _ _ _ channel_indices
              Hcontract Hchannels Hmargin Hrange Hend)
    as (chunk & left_margin & right_margin & Hchunk & Hl & Hr & Hn & Hc & Hrows).
  exists chunk, left_margin, right_margin. split; [exact Hchunk|].
  intros y Hfilt Hshape.
  assert (0 <= left_margin) as Hl0 by lia.
  assert (0 <= right_margin) as Hr0 by lia.
  assert (has_shape y (Z.to_nat (left_margin + (end_frame - start_frame) + right_margin))
            (length channel_indices)) as Hy.
  { destruct Hshape as (Hyn & Hyc & Hyrows). rewrite Hn in Hyn.
    rewrite Hc in Hyc, Hyrows. by split. }
  assert (Hfit : left_margin + right_margin <= Z.of_nat (nrows y))
    by (destruct Hy as (-> & _); lia).
  pose proof (trim_rows y left_margin right_margin Hl0 Hr0 Hfit) as Htrim.
  exists (take (Z.to_nat left_margin) (rows y)),
    (rows (trim y left_margin right_margin)),
    (drop (nrows y - Z.to_nat right_margin) (rows y)),
    (astype (dtype self) (trim y left_margin right_margin)).
  split; [| split; [| split; [| split; [| split]]]].
  - rewrite (get_traces_chunk _ _ _ _ _ _ _ Hchunk), Hfilt. reflexivity.
  - rewrite Htrim. apply cut_both_ends. unfold nrows in *. lia.
  - rewrite length_take. unfold nrows in *. lia.
  - rewrite length_drop. unfold nrows in *. lia.
  - f_equal. rewrite <- (trim_ncols y left_margin right_margin).
    by destruct (trim y left_margin right_margin).
  - apply astype_has_shape.
    replace (Z.to_nat (end_frame - start_frame)) with
      (Z.to_nat (left_margin + (end_frame - start_frame) + right_margin)
       - Z.to_nat left_margin - Z.to_nat right_margin)%nat by lia.
    apply trim_has_shape; [exact Hy | lia | lia | lia].
Qed.

(** C6: [get_traces] dispatches on the representation tag.  With ['sos'] the
    padded chunk goes through [sosfiltfilt], the forward-backward cascade of
    second-order sections, along axis 0; with ['ba'] the coefficients are
    unpacked into [(b, a)] and the chunk goes through [filtfilt], the
    forward-backward filter on numerator and denominator, along axis 0. *)
Theorem get_traces_dispatch self start_frame end_frame channel_indices :
  (filter_mode self = "sos" ->
   get_traces self start_frame end_frame channel_indices =
     '(traces_chunk, left_margin, right_margin) ←
       get_chunk_with_margin (parent_recording_segment self)
         start_frame end_frame channel_indices (margin self);
     filtered ← sosfiltfilt (coeff self) traces_chunk 0;
     Ok (astype (dtype self) (trim filtered left_margin right_margin))) /\
  (forall b a, filter_mode self = "ba" -> coeff self = Ba b a ->
   get_traces self start_frame end_frame channel_indices =
     '(traces_chunk, left_margin, right_margin) ←
       get_chunk_with_margin (parent_recording_segment self)
         start_frame end_frame channel_indices (margin self);
     filtered ← filtfilt b a traces_chunk 0;
     Ok (astype (dtype self) (trim filtered left_margin right_margin))).
Proof.
  split; [intros Hmode | intros b a Hmode Hcoeff];
    unfold get_traces, filtered_traces; rewrite Hmode;
    destruct (get_chunk_with_margin _ _ _ _ _) as [[[chunk l] r]|e];
    try reflexivity; cbn.
  - by destruct (sosfiltfilt (coeff self) chunk 0).
  - rewrite Hcoeff. cbn. by destruct (filtfilt b a chunk 0).
Qed.


(** Under any other tag no branch is taken, and reading the local raises. *)
Lemma filtered_traces_unassigned self chunk :
  filter_mode self <> "sos" -> filter_mode self <> "ba" ->
  filtered_traces self chunk = Ok None.
Proof.
  intros Hsos Hba. unfold filtered_traces.
  by rewrite !bool_decide_eq_false_2.
Qed.

Lemma get_traces_unbound self start_frame end_frame channel_indices
    chunk left_margin right_margin :
  filter_mode self <> "sos" -> filter_mode self <> "ba" ->
  get_chunk_with_margin (parent_recording_segment self) start_frame end_frame
    channel_indices (margin self) = Ok (chunk, left_margin, right_margin) ->
  get_traces self start_frame end_frame channel_indices = Raise UnboundLocalError.
Proof.
  intros Hsos Hba Hchunk.
  by rewrite (get_traces_chunk _ _ _ _ _ _ _ Hchunk), filtered_traces_unassigned.
Qed.
End Engine.

Lemma get_traces_shape_witness :
  exists chunk y front kept back out,
    get_chunk_with_margin (Bench.checked_segment 2 Bench.ramp) 3 8 [1; 0] 2
      = Ok (chunk, 2, 2) /\
    @FilterRecordingSegment.filtered_traces Bench.scipy Bench.checked_sos_segment
      chunk = Ok (Some y) /\
    has_shape y (nrows chunk) (ncols chunk) /\
    @FilterRecordingSegment.get_traces Bench.numpy Bench.scipy
      Bench.checked_sos_segment 3 8 [1; 0] = Ok out /\
    rows y = front ++ kept ++ back /\
    Z.of_nat (length front) = 2 /\
    Z.of_nat (length back) = 2 /\
    out = @astype Bench.numpy float64 (NDArray (ncols y) kept) /\
    has_shape out 5 2.
Proof.
  destruct (@get_traces_shape Bench.numpy Bench.scipy Bench.checked_sos_segment 2%nat
              3 8 [1; 0])
    as (chunk & left_margin & right_margin & Hchunk & Hfiltered).
  - apply checked_segment_contract.
  - repeat constructor; lia.
  - cbn. lia.
  - lia.
  - cbn. lia.
  - vm_compute in Hchunk. injection Hchunk as <- <- <-.
    edestruct Hfiltered as (front & kept & back & out & Hout & Hrows & Hf & Hb & Heq & Hs).
    + reflexivity.
    + by repeat split; repeat constructor.
    + eexists _, _, front, kept, back, out.
      split; [reflexivity|]. split; [reflexivity|].
      split; [by repeat split; repeat constructor|].
      split; [exact Hout|]. split; [exact Hrows|]. split; [exact Hf|].
      split; [exact Hb|]. split; [exact Heq | exact Hs].
Defined.

(** C5, as the claim has it, fails.  Nothing keeps a margin from being
    negative ([margin_ms] is not checked): on a twelve-frame parent, a
    segment of margin [-1] asked for frames [1] to [11] of channel [0]
    returns one row where ten were asked for.  And a request whose padded
    chunk is not longer than the filter's padding gets no rows at all: the
    filter raises and so does [get_traces]. *)
Lemma get_traces_wrong_length :
  get_num_frames (parent_recording_segment Bench.negative_margin_segment) = 12 /\
  get_chunk_with_margin (parent_recording_segment Bench.negative_margin_segment)
    1 11 [0] (-1)
    = Ok (NDArray 1 [[2]; [3]; [4]; [5]; [6]; [7]; [8]; [9]]%float, -1, -1) /\
  @FilterRecordingSegment.get_traces Bench.numpy Bench.scipy
    Bench.negative_margin_segment 1 11 [0] = Ok (NDArray 1 [[2.25]]%float) /\
  @FilterRecordingSegment.get_traces Bench.numpy Bench.scipy
    Bench.checked_sos_segment 0 1 [0] = Raise ValueError.
Proof. repeat split; vm_compute; reflexivity. Qed.

Lemma get_traces_dispatch_witness :
  @FilterRecordingSegment.get_traces Bench.numpy Bench.scipy Bench.sos_segment 3 8 [1; 0] =
    ('(traces_chunk, left_margin, right_margin) ←
       get_chunk_with_margin (Bench.array_segment Bench.ramp) 3 8 [1; 0] 2;
     filtered ← @sosfiltfilt Bench.scipy (Sos [[0.5; 0; 0; 1; 0; 0]%float]) traces_chunk 0;
     Ok (@astype Bench.numpy float64
           (FilterRecordingSegment.trim filtered left_margin right_margin))) /\
  @FilterRecordingSegment.get_traces Bench.numpy Bench.scipy Bench.ba_segment 3 8 [1; 0] =
    ('(traces_chunk, left_margin, right_margin) ←
       get_chunk_with_margin (Bench.array_segment Bench.ramp) 3 8 [1; 0] 2;
     filtered ← @filtfilt Bench.scipy [0.5%float] [1%float] traces_chunk 0;
     Ok (@astype Bench.numpy int16
           (FilterRecordingSegment.trim filtered left_margin right_margin))).
Proof.
  split.
  - exact (proj1 (@get_traces_dispatch Bench.numpy Bench.scipy
                    Bench.sos_segment 3 8 [1; 0]) eq_refl).
  - exact (proj2 (@get_traces_dispatch Bench.numpy Bench.scipy
                    Bench.ba_segment 3 8 [1; 0]) _ _ eq_refl eq_refl).
Defined.

(** ** The constructors *)

Section Constructors.
Context `{SciPySignal}.

Lemma for_each_add_segments (f : Segment -> FilterRecordingSegment)
    (l : list Segment) (self : Preprocessor) :
  for_each l (fun parent_segment =>
                BasePreprocessor.add_recording_segment (f parent_segment)) self =
  (Ok (),
   {| _parent_recording := _parent_recording self;
      _dtype := _dtype self;
      _annotations := _annotations self;
      _segments := _segments self ++ (f <$> l);
      _kwargs := _kwargs self |}).
Proof.
  revert self. induction l as [|p l IH]; intros self.
  - cbn. rewrite app_nil_r. by destruct self.
  - cbn. unfold mbind, method_bind. cbn. rewrite IH. cbn.
    by rewrite <- app_assoc.
Qed.

(** [FilterRecording(...)], step by step: the two assertions, the design
    frequencies, the coefficient design, the margin, and then the
    recording of [built]. *)
Lemma FilterRecording_run recording band btype filter_order ftype filter_mode
    margin_ms dtype :
  FilterRecording recording band btype filter_order ftype filter_mode margin_ms dtype =
    _ ← assert (bool_decide (btype ∈ ["bandpass"; "lowpass"; "highpass"; "bandstop"]));
    _ ← assert (bool_decide (filter_mode ∈ ["sos"; "ba"]));
    Wn ← FilterRecording.Wn band btype (get_sampling_frequency recording);
    coeff ← iirfilter filter_order Wn false btype ftype filter_mode;
    margin ← margin_samples margin_ms (get_sampling_frequency recording);
    Ok (built recording dtype coeff filter_mode margin
          (FilterRecording_kwargs recording band btype filter_order ftype
             filter_mode margin_ms)).
Proof.
  unfold FilterRecording, new, FilterRecording.__init__.
  unfold mbind, method_bind, result_bind, call.
  destruct (assert _) as [[]|e]; [|reflexivity].
  destruct (assert _) as [[]|e]; [|reflexivity].
  destruct (FilterRecording.Wn _ _ _) as [wn|e]; [|reflexivity].
  destruct (iirfilter _ _ _ _ _ _) as [c|e]; [|reflexivity].
  cbn beta iota.
  unfold BasePreprocessor.__init__, BasePreprocessor.get_dtype,
    BasePreprocessor.annotate. cbn beta iota.
  cbn [_parent_recording _dtype _annotations _segments _kwargs fresh].
  destruct (margin_samples _ _) as [m|e]; [|reflexivity].
  rewrite for_each_add_segments. reflexivity.
Qed.

(** What [__init__] does to a fresh instance, read off the class call. *)
Lemma new_ok (init : method unit) (o : Preprocessor) :
  new init = Ok o -> init fresh = (Ok (), o).
Proof.
  unfold new. destruct (init fresh) as [[[]|e] self]; [|discriminate].
  by intros [= ->].
Qed.

Lemma new_raise (init : method unit) (e : exn) :
  new init = Raise e -> exists self, init fresh = (Raise e, self).
Proof.
  unfold new. destruct (init fresh) as [[[]|e'] self]; [discriminate|].
  intros [= ->]. eauto.
Qed.

Lemma BandpassFilterRecording_run recording freq_min freq_max margin_ms dtype
    filter_kwargs :
  let btype := default "bandpass" (dk_btype filter_kwargs) in
  let filter_order := default 5 (dk_filter_order filter_kwargs) in
  let ftype := default "butter" (dk_ftype filter_kwargs) in
  let filter_mode := default "sos" (dk_filter_mode filter_kwargs) in
  BandpassFilterRecording recording freq_min freq_max margin_ms dtype filter_kwargs =
    _ ← assert (bool_decide (btype ∈ ["bandpass"; "lowpass"; "highpass"; "bandstop"]));
    _ ← assert (bool_decide (filter_mode ∈ ["sos"; "ba"]));
    Wn ← FilterRecording.Wn (BandList [freq_min; freq_max]) btype
           (get_sampling_frequency recording);
    coeff ← iirfilter filter_order Wn false btype ftype filter_mode;
    margin ← margin_samples margin_ms (get_sampling_frequency recording);
    Ok (built recording dtype coeff filter_mode margin
          (BandpassFilterRecording_kwargs recording freq_min freq_max margin_ms
             filter_kwargs)).
Proof.
  intros btype filter_order ftype filter_mode.
  pose proof (FilterRecording_run recording (BandList [freq_min; freq_max])
                btype filter_order ftype filter_mode margin_ms dtype) as Hrun.
  unfold BandpassFilterRecording, BandpassFilterRecording.__init__.
  fold btype filter_order ftype filter_mode.
  unfold FilterRecording in Hrun. unfold new in *.
  unfold mbind at 1 2. unfold method_bind.
  unfold mbind, result_bind in Hrun |- *.
  destruct (FilterRecording.__init__ _ _ _ _ _ _ _ _ fresh) as [[[]|e] self];
    repeat match type of Hrun with
           | _ = match ?r with _ => _ end => destruct r; try discriminate
           end;
    injection Hrun as ->; reflexivity.
Qed.
Lemma NotchFilterRecording_run recording freq q margin_ms dtype :
  NotchFilterRecording recording freq q margin_ms dtype =
    w0 ← PyFloat.truediv freq (0.5 * get_sampling_frequency recording)%float;
    '(b, a) ← iirnotch w0 q;
    margin ← margin_samples margin_ms (get_sampling_frequency recording);
    Ok (built recording dtype (Ba b a) "ba" margin
          (NotchFilterRecording_kwargs recording freq q margin_ms)).
Proof.
  unfold NotchFilterRecording, new, NotchFilterRecording.__init__.
  unfold mbind, method_bind, result_bind, call.
  destruct (PyFloat.truediv _ _) as [w0|e]; [|reflexivity].
  destruct (iirnotch _ _) as [[b a]|e]; [|reflexivity].
  cbn beta iota.
  unfold BasePreprocessor.__init__, BasePreprocessor.get_dtype,
    BasePreprocessor.annotate. cbn beta iota.
  cbn [_parent_recording _dtype _annotations _segments _kwargs fresh].
  destruct (margin_samples _ _) as [m|e]; [|reflexivity].
  rewrite for_each_add_segments. reflexivity.
Qed.

(** When an assertion, the design frequencies or the coefficient design
    fails, [__init__] raises with [self] as it found it. *)
Lemma FilterRecording_init_rejects recording band btype filter_order ftype
    filter_mode margin_ms dtype e self :
  (_ ← assert (bool_decide (btype ∈ ["bandpass"; "lowpass"; "highpass"; "bandstop"]));
   _ ← assert (bool_decide (filter_mode ∈ ["sos"; "ba"]));
   Wn ← FilterRecording.Wn band btype (get_sampling_frequency recording);
   iirfilter filter_order Wn false btype ftype filter_mode) = Raise e ->
  FilterRecording.__init__ recording band btype filter_order ftype filter_mode
    margin_ms dtype self = (Raise e, self).
Proof.
  unfold FilterRecording.__init__.
  unfold mbind, method_bind, result_bind, call.
  destruct (assert _) as [[]|e1]; [|by intros [= ->]].
  destruct (assert _) as [[]|e2]; [|by intros [= ->]].
  destruct (FilterRecording.Wn _ _ _) as [wn|e3]; [|by intros [= ->]].
  destruct (iirfilter _ _ _ _ _ _) as [c|e4]; [discriminate|by intros [= ->]].
Qed.

Lemma assert_ok (b : bool) (u : unit) : assert b = Ok u -> b = true.
Proof. by destruct b. Qed.

(** For a band-pass or band-stop design, frequencies come out only of a
    list of two. *)
Lemma Wn_two_frequencies band btype sf wn :
  btype ∈ ["bandpass"; "bandstop"] ->
  FilterRecording.Wn band btype sf = Ok wn ->
  exists low high, band = BandList [low; high].
Proof.
  intros Hb. unfold FilterRecording.Wn. rewrite bool_decide_eq_true_2 by done.
  destruct band as [f|l]; [discriminate|]. cbn [Band.len].
  intros (n & [= <-] & (u & Hlen%assert_ok%Z.eqb_eq & _)%bind_ok)%bind_ok.
  destruct l as [|low [|high [|? ?]]]; cbn in Hlen; try lia. eauto.
Qed.

Lemma Wn_rejects band btype sf :
  btype ∈ ["bandpass"; "bandstop"] ->
  ¬ (exists low high, band = BandList [low; high]) ->
  exists e, FilterRecording.Wn band btype sf = Raise e.
Proof.
  intros Hb Hband.
  destruct (FilterRecording.Wn band btype sf) as [wn|e] eqn:HWn; [|eauto].
  destruct Hband. by eapply Wn_two_frequencies.
Qed.
End Constructors.

(** C4: a [FilterRecording] whose family is not one of the four band types,
    whose representation is neither ['sos'] nor ['ba'], or whose band, for
    ['bandpass'] and ['bandstop'], is not a list of two frequencies, is
    rejected: the constructor raises, and [__init__] leaves the instance as it
    found it, no segment built.  A recording that is produced had valid
    parameters and holds one filter segment per segment of the parent. *)
Theorem FilterRecording_validates `{SciPySignal} recording band btype filter_order
    ftype filter_mode margin_ms dtype :
  (btype ∉ ["bandpass"; "lowpass"; "highpass"; "bandstop"] \/
   filter_mode ∉ ["sos"; "ba"] \/
   (btype ∈ ["bandpass"; "bandstop"] /\ ¬ exists low high, band = BandList [low; high]) ->
   exists e,
     FilterRecording recording band btype filter_order ftype filter_mode
       margin_ms dtype = Raise e /\
     forall self,
       FilterRecording.__init__ recording band btype filter_order ftype
         filter_mode margin_ms dtype self = (Raise e, self)) /\
  (forall o,
     FilterRecording recording band btype filter_order ftype filter_mode
       margin_ms dtype = Ok o ->
     btype ∈ ["bandpass"; "lowpass"; "highpass"; "bandstop"] /\
     filter_mode ∈ ["sos"; "ba"] /\
     (btype ∈ ["bandpass"; "bandstop"] -> exists low high, band = BandList [low; high]) /\
     length (_segments o) = length (_recording_segments recording) /\
     exists Wn coeff margin,
       iirfilter filter_order Wn false btype ftype filter_mode = Ok coeff /\
       o = built recording dtype coeff filter_mode margin
             (FilterRecording_kwargs recording band btype filter_order ftype
                filter_mode margin_ms)).
Proof.
  split.
  - intros Hbad.
    assert (exists e,
      (_ ← assert (bool_decide (btype ∈ ["bandpass"; "lowpass"; "highpass"; "bandstop"]));
       _ ← assert (bool_decide (filter_mode ∈ ["sos"; "ba"]));
       Wn ← FilterRecording.Wn band btype (get_sampling_frequency recording);
       iirfilter filter_order Wn false btype ftype filter_mode) = Raise e)
      as [e He].
    { destruct (decide (btype ∈ ["bandpass"; "lowpass"; "highpass"; "bandstop"]))
        as [Hb|Hb]; [|rewrite (bool_decide_eq_false_2 _ Hb); cbn; eauto].
      rewrite (bool_decide_eq_true_2 _ Hb).
      destruct (decide (filter_mode ∈ ["sos"; "ba"]))
        as [Hm|Hm]; [|rewrite (bool_decide_eq_false_2 _ Hm); cbn; eauto].
      rewrite (bool_decide_eq_true_2 _ Hm).
      destruct Hbad as [?|[?|[Hbt Hband]]]; [done|done|].
      destruct (Wn_rejects band btype (get_sampling_frequency recording) Hbt Hband)
        as [e ->]. cbn. eauto. }
    exists e. split.
    + unfold FilterRecording, new.
      by rewrite (FilterRecording_init_rejects _ _ _ _ _ _ _ _ _ _ He).
    + intros self. by apply FilterRecording_init_rejects.
  - intros o. rewrite FilterRecording_run.
    intros (u1 & Hb%assert_ok%bool_decide_eq_true_1 &
            (u2 & Hm%assert_ok%bool_decide_eq_true_1 &
             (wn & HWn & (c & Hc & (m & Hm' & [= <-])%bind_ok)%bind_ok)%bind_ok)%bind_ok)%bind_ok.
    split; [done|]. split; [done|].
    split; [intros Hbt; by eapply Wn_two_frequencies|].
    split; [cbn; by rewrite length_fmap|].
    eauto.
Qed.

Lemma FilterRecording_validates_witness :
  (exists e,
     @FilterRecording Bench.scipy (Bench.recording 30000 int16)
       (BandList [300; 6000]%float) "notch" 5 "butter" "sos" 5%float None = Raise e) /\
  (exists o,
     @FilterRecording Bench.scipy (Bench.recording 30000 int16)
       (BandList [300; 6000]%float) "bandpass" 5 "butter" "sos" 5%float None = Ok o /\
     length (_segments o) = 2%nat).
Proof.
  split.
  - destruct (proj1 (@FilterRecording_validates Bench.scipy (Bench.recording 30000 int16)
                       (BandList [300; 6000]%float) "notch" 5 "butter" "sos" 5%float None))
      as (e & He & _); [|eauto].
    left. by_decide.
  - eexists. split; [reflexivity|].
    by destruct (proj2 (@FilterRecording_validates Bench.scipy (Bench.recording 30000 int16)
                          (BandList [300; 6000]%float) "bandpass" 5 "butter" "sos" 5%float None)
                   _ eq_refl) as (_ & _ & _ & Hlen & _).
Defined.

(** ** What a successful construction leaves *)

Section Built.
Context `{SciPySignal}.

Lemma FilterRecording_built recording band btype filter_order ftype filter_mode
    margin_ms dtype o :
  FilterRecording recording band btype filter_order ftype filter_mode
    margin_ms dtype = Ok o ->
  exists coeff margin,
    filter_mode ∈ ["sos"; "ba"] /\
    margin_samples margin_ms (get_sampling_frequency recording) = Ok margin /\
    o = built recording dtype coeff filter_mode margin
          (FilterRecording_kwargs recording band btype filter_order ftype
             filter_mode margin_ms).
Proof.
  rewrite FilterRecording_run.
  intros (_ & _ & (u & Hm%assert_ok%bool_decide_eq_true_1 &
          (wn & _ & (c & _ & (m & Hm' & [= <-])%bind_ok)%bind_ok)%bind_ok)%bind_ok)%bind_ok.
  eauto.
Qed.

Lemma BandpassFilterRecording_built recording freq_min freq_max margin_ms dtype
    filter_kwargs o :
  BandpassFilterRecording recording freq_min freq_max margin_ms dtype
    filter_kwargs = Ok o ->
  exists coeff margin,
    default "sos" (dk_filter_mode filter_kwargs) ∈ ["sos"; "ba"] /\
    margin_samples margin_ms (get_sampling_frequency recording) = Ok margin /\
    o = built recording dtype coeff (default "sos" (dk_filter_mode filter_kwargs))
          margin
          (BandpassFilterRecording_kwargs recording freq_min freq_max margin_ms
             filter_kwargs).
Proof.
  rewrite BandpassFilterRecording_run.
  intros (_ & _ & (u & Hm%assert_ok%bool_decide_eq_true_1 &
          (wn & _ & (c & _ & (m & Hm' & [= <-])%bind_ok)%bind_ok)%bind_ok)%bind_ok)%bind_ok.
  eauto.
Qed.

Lemma NotchFilterRecording_built recording freq q margin_ms dtype o :
  NotchFilterRecording recording freq q margin_ms dtype = Ok o ->
  exists w0 b a margin,
    PyFloat.truediv freq (0.5 * get_sampling_frequency recording)%float = Ok w0 /\
    iirnotch w0 q = Ok (b, a) /\
    margin_samples margin_ms (get_sampling_frequency recording) = Ok margin /\
    o = built recording dtype (Ba b a) "ba" margin
          (NotchFilterRecording_kwargs recording freq q margin_ms).
Proof.
  rewrite NotchFilterRecording_run.
  intros (w0 & Hw & ([b a] & Hn & (m & Hm & [= <-])%bind_ok)%bind_ok)%bind_ok.
  by exists w0, b, a, m.
Qed.

(** Every segment of [built] carries the same parameters. *)
Lemma built_segments recording dtype coeff filter_mode margin kwargs
    (P : FilterRecordingSegment -> Prop) :
  (forall parent_segment,
     P {| parent_recording_segment := parent_segment; coeff := coeff;
          filter_mode := filter_mode; margin := margin;
          dtype := default (get_dtype recording) dtype |}) ->
  Forall P (_segments (built recording dtype coeff filter_mode margin kwargs)).
Proof. intros HP. cbn. apply Forall_fmap, Forall_forall. intros p _. apply HP. Qed.

Lemma built_parents recording dtype coeff filter_mode margin kwargs :
  parent_recording_segment <$>
    _segments (built recording dtype coeff filter_mode margin kwargs) =
  _recording_segments recording.
Proof.
  cbn. rewrite <- list_fmap_compose. apply list_fmap_id.
Qed.
End Built.

(** ** [int] of a float *)

Section IntOfFloat.
Import PyFloat.
Open Scope Q_scope.

Lemma magnitude_bounds (m : positive) (e : Z) :
  inject_Z (magnitude m e) <= abs_value m e /\
  abs_value m e < inject_Z (magnitude m e + 1) /\
  0 < abs_value m e.
Proof.
  destruct e as [|p|p]; unfold magnitude, abs_value.
  - split; [apply Qle_refl | split; [rewrite <- Zlt_Qlt; lia | reflexivity]].
  - split; [apply Qle_refl | split; [rewrite <- Zlt_Qlt; lia | reflexivity]].
  - pose proof (Z.mul_div_le (Zpos m) (Zpos (2 ^ p)) eq_refl) as Hle.
    pose proof (Z.mul_succ_div_gt (Zpos m) (Zpos (2 ^ p)) eq_refl) as Hgt.
    split; [|split]; unfold Qle, Qlt; cbn [Qnum Qden inject_Z]; lia.
Qed.

(** [int] drops the fractional part of the number the float denotes. *)
Lemma int_truncates (x : float) (z : Z) :
  int x = Ok z -> exists q, value x = Some q /\ truncates q z.
Proof.
  unfold int, value, truncates.
  destruct (Prim2SF x) as [s| | |s m e]; try discriminate; intros [= <-].
  - exists 0. split; [reflexivity|]. split; intros _; split; by compute.
  - destruct (magnitude_bounds m e) as (Hle & Hlt & Hpos).
    destruct s; eexists; (split; [reflexivity|]).
    + split; intros Hsign.
      * exfalso. apply (Qlt_irrefl 0).
        eapply Qlt_le_trans; [exact Hpos|].
        apply Qopp_le_compat in Hsign. by rewrite Qopp_opp in Hsign.
      * split.
        -- replace (- magnitude m e - 1)%Z with (- (magnitude m e + 1))%Z by lia.
           rewrite inject_Z_opp. by apply Qopp_lt_compat.
        -- rewrite inject_Z_opp. by apply Qopp_le_compat.
    + split; intros Hsign.
      * done.
      * exfalso. apply (Qlt_irrefl 0). by eapply Qlt_le_trans.
Qed.
End IntOfFloat.

(** ** Margins in samples *)

(** C3, as the code has it: in every variant the margin of each segment is
    [int(margin_ms * sf / 1000.)], the float quotient with its fractional part
    dropped (rounded toward zero), not rounded to the nearest integer. *)
Theorem margin_truncated `{SciPySignal} recording margin_ms dtype
    band btype filter_order ftype filter_mode
    freq_min freq_max filter_kwargs freq q o :
  FilterRecording recording band btype filter_order ftype filter_mode
    margin_ms dtype = Ok o \/
  BandpassFilterRecording recording freq_min freq_max margin_ms dtype
    filter_kwargs = Ok o \/
  NotchFilterRecording recording freq q margin_ms dtype = Ok o ->
  exists x m,
    PyFloat.int (margin_ms * get_sampling_frequency recording / 1000)%float = Ok m /\
    PyFloat.value (margin_ms * get_sampling_frequency recording / 1000)%float = Some x /\
    PyFloat.truncates x m /\
    Forall (fun seg => margin seg = m) (_segments o).
Proof.
  intros Hbuilt.
  assert (exists c mode m kw,
    margin_samples margin_ms (get_sampling_frequency recording) = Ok m /\
    o = built recording dtype c mode m kw) as (c & mode & m & kw & Hm & ->).
  { destruct Hbuilt as [Hf|[Hb|Hn]].
    - apply FilterRecording_built in Hf as (c & m & _ & Hm & ->). eauto 6.
    - apply BandpassFilterRecording_built in Hb as (c & m & _ & Hm & ->). eauto 6.
    - apply NotchFilterRecording_built in Hn as (w0 & b & a & m & _ & _ & Hm & ->).
      eauto 6. }
  destruct (int_truncates _ _ Hm) as (x & Hx & Htrunc).
  exists x, m. split; [exact Hm|]. split; [exact Hx|]. split; [exact Htrunc|].
  by apply built_segments.
Qed.

Lemma margin_truncated_witness :
  exists x m,
    PyFloat.int (1 * 1750 / 1000)%float = Ok m /\
    PyFloat.value (1 * 1750 / 1000)%float = Some x /\
    PyFloat.truncates x m /\
    Forall (fun seg => margin seg = m)
      (_segments (built (Bench.recording 1750 int16) None
                    (Ba [0.5%float] [1%float]) "ba" 1
                    (NotchFilterRecording_kwargs (Bench.recording 1750 int16) 50 30 1))).
Proof.
  apply (@margin_truncated Bench.scipy (Bench.recording 1750 int16) 1%float None
           (BandFloat 0) "lowpass" 0 "butter" "sos" 0%float 0%float no_design_kwargs 50%float 30%float).
  right. right. reflexivity.
Defined.

(** C3, as the specification has it, fails: one millisecond at 1750 Hz is
    1.75 samples, which [round] takes to 2, while every variant gives its
    segments a margin of 1. *)
Lemma margin_not_rounded :
  (exists x, PyFloat.value (1 * 1750 / 1000)%float = Some x /\ (x == 7 # 4)%Q) /\
  spec_margin_samples 1 1750 = Some 2 /\
  margin_samples 1 1750 = Ok 1 /\
  ¬ PyFloat.nearest (7 # 4) 1 /\
  (fun o => margin <$> _segments o) <$>
    @FilterRecording Bench.scipy (Bench.recording 1750 int16)
      (BandList [300; 600]%float) "bandpass" 5 "butter" "sos" 1%float None
    = Ok [1; 1] /\
  (fun o => margin <$> _segments o) <$>
    @BandpassFilterRecording Bench.scipy (Bench.recording 1750 int16)
      300%float 600%float 1%float None no_design_kwargs
    = Ok [1; 1] /\
  (fun o => margin <$> _segments o) <$>
    @NotchFilterRecording Bench.scipy (Bench.recording 1750 int16)
      50%float 30%float 1%float None
    = Ok [1; 1].
Proof.
  split; [eexists; split; [vm_compute; reflexivity | reflexivity]|].
  split; [vm_compute; reflexivity|].
  split; [vm_compute; reflexivity|].
  split; [by vm_compute|].
  repeat split; vm_compute; reflexivity.
Qed.

(** ** The notch variant *)

(** C7: every segment [NotchFilterRecording] builds is a
    [FilterRecordingSegment] tagged ['ba'] whose coefficients are the pair
    [(b, a)] that [iirnotch] returns for [freq / fn], with [fn] half the
    sampling frequency, and [q]; there is one per segment of the parent. *)
Theorem NotchFilterRecording_ba `{SciPySignal} recording freq q margin_ms dtype o :
  NotchFilterRecording recording freq q margin_ms dtype = Ok o ->
  exists b a,
    iirnotch (freq / (0.5 * get_sampling_frequency recording))%float q = Ok (b, a) /\
    parent_recording_segment <$> _segments o = _recording_segments recording /\
    Forall (fun seg => filter_mode seg = "ba" /\ coeff seg = Ba b a) (_segments o).
Proof.
  intros (w0 & b & a & m & Hw & Hnotch & _ & ->)%NotchFilterRecording_built.
  exists b, a. split; [|split].
  - unfold PyFloat.truediv in Hw.
    destruct (_ =? 0)%float; [discriminate|]. by injection Hw as <-.
  - apply built_parents.
  - by apply built_segments.
Qed.

Lemma NotchFilterRecording_ba_witness :
  exists b a,
    @iirnotch Bench.scipy (3000 / (0.5 * 30000))%float 30%float = Ok (b, a) /\
    parent_recording_segment <$>
      _segments (built (Bench.recording 30000 int16) None
                   (Ba [0.5%float] [1%float]) "ba" 150
                   (NotchFilterRecording_kwargs (Bench.recording 30000 int16) 3000 30 5))
      = _recording_segments (Bench.recording 30000 int16) /\
    Forall (fun seg => filter_mode seg = "ba" /\ coeff seg = Ba b a)
      (_segments (built (Bench.recording 30000 int16) None
                    (Ba [0.5%float] [1%float]) "ba" 150
                    (NotchFilterRecording_kwargs (Bench.recording 30000 int16) 3000 30 5))).
Proof.
  apply (@NotchFilterRecording_ba Bench.scipy (Bench.recording 30000 int16)
           3000%float 30%float 5%float None).
  reflexivity.
Defined.

(** ** Annotation and element type *)

Lemma built_filtered_as recording dtype coeff filter_mode margin kwargs :
  filtered_as (built recording dtype coeff filter_mode margin kwargs)
    (match dtype with Some d => d | None => get_dtype recording end).
Proof.
  split; [|split].
  - cbn. apply lookup_insert_eq.
  - by destruct dtype.
  - apply built_segments. intros p. by destruct dtype.
Qed.

(** C8: each variant, once constructed, carries the [is_filtered] annotation,
    and its element type, which is also that of its segments, is the [dtype]
    argument when one is given and the parent's when [dtype] is [None]. *)
Theorem variants_filtered_as `{SciPySignal} recording margin_ms dtype
    band btype filter_order ftype filter_mode
    freq_min freq_max filter_kwargs freq q o :
  FilterRecording recording band btype filter_order ftype filter_mode
    margin_ms dtype = Ok o \/
  BandpassFilterRecording recording freq_min freq_max margin_ms dtype
    filter_kwargs = Ok o \/
  NotchFilterRecording recording freq q margin_ms dtype = Ok o ->
  filtered_as o (match dtype with Some d => d | None => get_dtype recording end).
Proof.
  intros [Hf|[Hb|Hn]].
  - apply FilterRecording_built in Hf as (c & m & _ & _ & ->).
    apply built_filtered_as.
  - apply BandpassFilterRecording_built in Hb as (c & m & _ & _ & ->).
    apply built_filtered_as.
  - apply NotchFilterRecording_built in Hn as (w0 & b & a & m & _ & _ & _ & ->).
    apply built_filtered_as.
Qed.

Lemma variants_filtered_as_witness :
  filtered_as
    (built (Bench.recording 30000 int16) (Some float32)
       (Sos [[0.5; 0; 0; 1; 0; 0]%float]) "sos" 150
       (BandpassFilterRecording_kwargs (Bench.recording 30000 int16) 300 6000 5
          no_design_kwargs))
    float32 /\
  filtered_as
    (built (Bench.recording 30000 int16) None
       (Ba [0.5%float] [1%float]) "ba" 150
       (NotchFilterRecording_kwargs (Bench.recording 30000 int16) 3000 30 5))
    int16.
Proof.
  split.
  - apply (@variants_filtered_as Bench.scipy (Bench.recording 30000 int16) 5%float
             (Some float32) (BandFloat 0) "lowpass" 0 "butter" "sos" 300%float 6000%float
             no_design_kwargs 0%float 0%float).
    right. left. reflexivity.
  - apply (@variants_filtered_as Bench.scipy (Bench.recording 30000 int16) 5%float
             None (BandFloat 0) "lowpass" 0 "butter" "sos" 0%float 0%float
             no_design_kwargs 3000%float 30%float).
    right. right. reflexivity.
Defined.

(** ** The representation tag *)




(** ** The engine dispatcher *)

(** C1, as the code has it: for an engine that is neither ['scipy'] nor
    ['opencl'], [filter] raises nothing and returns [None]. *)
Theorem filter_unknown_engine `{SciPySignal, OpenCL} recording engine kwargs :
  engine <> "scipy" -> engine <> "opencl" ->
  filter recording engine kwargs = Ok None.
Proof.
  intros Hscipy Hopencl. unfold filter.
  by rewrite (bool_decide_eq_false_2 _ Hscipy), (bool_decide_eq_false_2 _ Hopencl).
Qed.

Lemma filter_unknown_engine_witness :
  @filter Bench.scipy Bench.opencl Bench.parent "numpy" Bench.no_kwargs = Ok None.
Proof.
  apply (@filter_unknown_engine Bench.scipy Bench.opencl Bench.parent "numpy"
           Bench.no_kwargs); by_decide.
Defined.

(** ** Retained parameters and reconstruction *)

Section Reconstruction.
Context `{SciPySignal}.

Lemma as_floats_fmap (l : list float) : Kwargs.as_floats (PFloat <$> l) = Ok l.
Proof. induction l as [|f l IH]; [reflexivity|]. cbn. by rewrite IH. Qed.

Lemma as_band_to_py (band : band_t) : Kwargs.as_band (Band.to_py band) = Ok band.
Proof. destruct band as [f|l]; [reflexivity|]. cbn. by rewrite as_floats_fmap. Qed.

(** No variant retains its [dtype] argument. *)
Lemma kwargs_without_dtype recording margin_ms dtype
    band btype filter_order ftype filter_mode
    freq_min freq_max filter_kwargs freq q o :
  FilterRecording recording band btype filter_order ftype filter_mode
    margin_ms dtype = Ok o \/
  BandpassFilterRecording recording freq_min freq_max margin_ms dtype
    filter_kwargs = Ok o \/
  NotchFilterRecording recording freq q margin_ms dtype = Ok o ->
  _kwargs o !! "dtype" = None.
Proof.
  intros [Hf|[Hb|Hn]].
  - apply FilterRecording_built in Hf as (c & m & _ & _ & ->). reflexivity.
  - apply BandpassFilterRecording_built in Hb as (c & m & _ & _ & ->).
    cbn. unfold BandpassFilterRecording_kwargs, design_kwargs_dict.
    apply lookup_union_None. split; [|reflexivity].
    destruct filter_kwargs as [[?|] [?|] [?|] [?|]]; reflexivity.
  - apply NotchFilterRecording_built in Hn as (w0 & b & a & m & _ & _ & _ & ->).
    reflexivity.
Qed.

(** Rebuilt from what it retains, a [FilterRecording] is the one its
    arguments give with [dtype=None]. *)
Lemma FilterRecording_rebuilt recording band btype filter_order ftype filter_mode
    margin_ms dtype o :
  FilterRecording recording band btype filter_order ftype filter_mode
    margin_ms dtype = Ok o ->
  FilterRecording_from_kwargs recording (_kwargs o) =
  FilterRecording recording band btype filter_order ftype filter_mode
    margin_ms None.
Proof.
  intros (c & m & _ & _ & ->)%FilterRecording_built.
  unfold FilterRecording_from_kwargs, FilterRecording_kw. cbn [_kwargs built].
  unfold Kwargs.check_names, Kwargs.keywords, Kwargs.arg.
  replace (bool_decide _) with true by (vm_compute; reflexivity).
  change (delete "recording" _ !! "band") with (Some (Band.to_py band)).
  change (delete "recording" _ !! "btype") with (Some (PStr btype)).
  change (delete "recording" _ !! "filter_order") with (Some (PInt filter_order)).
  change (delete "recording" _ !! "ftype") with (Some (PStr ftype)).
  change (delete "recording" _ !! "filter_mode") with (Some (PStr filter_mode)).
  change (delete "recording" _ !! "margin_ms") with (Some (PFloat margin_ms)).
  change (delete "recording" _ !! "dtype") with (@None pyval).
  cbn beta iota. rewrite as_band_to_py. reflexivity.
Qed.
End Reconstruction.

(** C2, as the code has it: no variant retains [dtype].  On a parent of 16-bit
    integers, each variant constructed with [dtype=float64] has no ["dtype"]
    entry in [_kwargs]; rebuilt from [_kwargs] against the same parent it
    falls back to the parent's element type, and the generic filter then
    returns other traces for the same request. *)
Theorem retained_parameters_lose_dtype :
  (@FilterRecording Bench.scipy Bench.parent (BandList [300; 6000]%float)
     "bandpass" 5 "butter" "sos" 5%float (Some float64) = Ok (Bench.generic (Some float64)) /\
   _kwargs (Bench.generic (Some float64)) !! "dtype" = None /\
   @FilterRecording_from_kwargs Bench.scipy Bench.parent
     (_kwargs (Bench.generic (Some float64))) = Ok (Bench.generic None) /\
   filtered_as (Bench.generic (Some float64)) float64 /\
   filtered_as (Bench.generic None) int16) /\
  (@BandpassFilterRecording Bench.scipy Bench.parent 300 6000 5 (Some float64)
     no_design_kwargs = Ok (Bench.bandpass (Some float64)) /\
   _kwargs (Bench.bandpass (Some float64)) !! "dtype" = None /\
   @BandpassFilterRecording_from_kwargs Bench.scipy Bench.parent
     (_kwargs (Bench.bandpass (Some float64))) = Ok (Bench.bandpass None) /\
   filtered_as (Bench.bandpass (Some float64)) float64 /\
   filtered_as (Bench.bandpass None) int16) /\
  (@NotchFilterRecording Bench.scipy Bench.parent 3000 30 5 (Some float64)
     = Ok (Bench.notch (Some float64)) /\
   _kwargs (Bench.notch (Some float64)) !! "dtype" = None /\
   @NotchFilterRecording_from_kwargs Bench.scipy Bench.parent
     (_kwargs (Bench.notch (Some float64))) = Ok (Bench.notch None) /\
   filtered_as (Bench.notch (Some float64)) float64 /\
   filtered_as (Bench.notch None) int16) /\
  (fun seg => @FilterRecordingSegment.get_traces Bench.numpy Bench.scipy seg 3 8 [1; 0])
    <$> head (_segments (Bench.generic (Some float64)))
    = Some (Ok (NDArray 2 [[25.75; 0.75]; [26; 1]; [26.25; 1.25];
                           [26.5; 1.5]; [26.75; 1.75]]%float)) /\
  (fun seg => @FilterRecordingSegment.get_traces Bench.numpy Bench.scipy seg 3 8 [1; 0])
    <$> head (_segments (Bench.generic None))
    = Some (Ok (NDArray 2 [[25; 0]; [26; 1]; [26; 1]; [26; 1]; [26; 1]]%float)).
Proof.
  repeat match goal with
         | |- _ /\ _ => split
         | |- filtered_as _ _ => apply built_filtered_as
         | |- _ = _ => vm_compute; reflexivity
         end.
Qed.


(** * Further properties of the constructors *)

Section Rejections.
Context `{SciPySignal}.

(** The checks that precede [BasePreprocessor.__init__]: when they fail, the
    class call raises the same exception and [__init__] leaves [self] as it
    found it. *)
Lemma FilterRecording_rejects_with recording band btype filter_order ftype
    filter_mode margin_ms dtype e :
  (_ ← assert (bool_decide (btype ∈ ["bandpass"; "lowpass"; "highpass"; "bandstop"]));
   _ ← assert (bool_decide (filter_mode ∈ ["sos"; "ba"]));
   Wn ← FilterRecording.Wn band btype (get_sampling_frequency recording);
   iirfilter filter_order Wn false btype ftype filter_mode) = Raise e ->
  FilterRecording recording band btype filter_order ftype filter_mode
    margin_ms dtype = Raise e /\
  forall self,
    FilterRecording.__init__ recording band btype filter_order ftype
      filter_mode margin_ms dtype self = (Raise e, self).
Proof.
  intros He. split.
  - unfold FilterRecording, new.
    by rewrite (FilterRecording_init_rejects _ _ _ _ _ _ _ _ _ _ He).
  - intros self. by apply FilterRecording_init_rejects.
Qed.

Lemma in_band_family (btype : string) :
  btype ∈ ["bandpass"; "bandstop"] ->
  btype ∈ ["bandpass"; "lowpass"; "highpass"; "bandstop"].
Proof. rewrite !elem_of_cons, !elem_of_nil. tauto. Qed.

Lemma in_cutoff_family (btype : string) :
  btype ∈ ["lowpass"; "highpass"] ->
  btype ∈ ["bandpass"; "lowpass"; "highpass"; "bandstop"] /\
  btype ∉ ["bandpass"; "bandstop"].
Proof.
  rewrite !elem_of_cons, !elem_of_nil. intros [->|[->|[]]]; split;
    first [tauto | intros [?|[?|[]]]; discriminate].
Qed.
End Rejections.

(** X1: the assertions of [FilterRecording.__init__] come first and in
    order.  An unknown family raises [AssertionError] whatever the other
    arguments are; a known family with an unknown representation raises
    [AssertionError]; and for ['bandpass'] and ['bandstop'] a band list
    whose length is not two raises [AssertionError].  In each case
    [__init__] leaves [self] untouched and the coefficient design has no
    part in the outcome. *)
Theorem FilterRecording_assertions `{SciPySignal} recording band btype
    filter_order ftype filter_mode margin_ms dtype :
  let rejected :=
    FilterRecording recording band btype filter_order ftype filter_mode
      margin_ms dtype = Raise AssertionError /\
    forall self,
      FilterRecording.__init__ recording band btype filter_order ftype
        filter_mode margin_ms dtype self = (Raise AssertionError, self) in
  (btype ∉ ["bandpass"; "lowpass"; "highpass"; "bandstop"] -> rejected) /\
  (btype ∈ ["bandpass"; "lowpass"; "highpass"; "bandstop"] ->
   filter_mode ∉ ["sos"; "ba"] -> rejected) /\
  (forall l, btype ∈ ["bandpass"; "bandstop"] -> filter_mode ∈ ["sos"; "ba"] ->
             band = BandList l -> length l <> 2%nat -> rejected).
Proof.
  intros rejected. subst rejected. split; [|split].
  - intros Hb. apply FilterRecording_rejects_with.
    by rewrite (bool_decide_eq_false_2 _ Hb).
  - intros Hb Hm. apply FilterRecording_rejects_with.
    by rewrite (bool_decide_eq_true_2 _ Hb), (bool_decide_eq_false_2 _ Hm).
  - intros l Hb Hm -> Hlen. apply FilterRecording_rejects_with.
    rewrite (bool_decide_eq_true_2 _ (in_band_family _ Hb)),
      (bool_decide_eq_true_2 _ Hm).
    unfold FilterRecording.Wn. rewrite (bool_decide_eq_true_2 _ Hb).
    cbn [Band.len]. cbn.
    destruct (Z.eqb_spec (Z.of_nat (length l)) 2) as [Heq|Hne]; [lia|reflexivity].
Qed.

Lemma FilterRecording_assertions_witness :
  @FilterRecording Bench.strict_scipy Bench.parent (BandFloat 300) "notch" 5
    "butter" "zpk" 5%float None = Raise AssertionError /\
  @FilterRecording Bench.strict_scipy Bench.parent (BandFloat 300) "lowpass" 5
    "butter" "zpk" 5%float None = Raise AssertionError /\
  @FilterRecording Bench.strict_scipy Bench.parent (BandList [300; 6000; 9000]%float)
    "bandstop" 5 "butter" "sos" 5%float None = Raise AssertionError.
Proof.
  split; [|split].
  - apply (proj1 (@FilterRecording_assertions Bench.strict_scipy Bench.parent
                    (BandFloat 300) "notch" 5 "butter" "zpk" 5%float None)).
    by_decide.
  - apply (proj1 (proj2 (@FilterRecording_assertions Bench.strict_scipy Bench.parent
                           (BandFloat 300) "lowpass" 5 "butter" "zpk" 5%float None)));
      by_decide.
  - apply (proj2 (proj2 (@FilterRecording_assertions Bench.strict_scipy Bench.parent
                           (BandList [300; 6000; 9000]%float) "bandstop" 5 "butter"
                           "sos" 5%float None)) [300; 6000; 9000]%float);
      [by_decide | by_decide | reflexivity | cbn; lia].
Defined.

(** X2: the band must have the kind its family asks for.  A scalar band
    with ['bandpass'] or ['bandstop'] raises [TypeError] (from [len(band)]),
    and a list band with ['lowpass'] or ['highpass'] raises [TypeError] (from
    [float(band)]); [__init__] leaves [self] untouched. *)
Theorem FilterRecording_band_kind `{SciPySignal} recording band btype
    filter_order ftype filter_mode margin_ms dtype :
  filter_mode ∈ ["sos"; "ba"] ->
  (btype ∈ ["bandpass"; "bandstop"] /\ (exists f, band = BandFloat f)) \/
  (btype ∈ ["lowpass"; "highpass"] /\ (exists l, band = BandList l)) ->
  FilterRecording recording band btype filter_order ftype filter_mode
    margin_ms dtype = Raise TypeError /\
  forall self,
    FilterRecording.__init__ recording band btype filter_order ftype
      filter_mode margin_ms dtype self = (Raise TypeError, self).
Proof.
  intros Hm Hkind. apply FilterRecording_rejects_with.
  rewrite (bool_decide_eq_true_2 _ Hm).
  destruct Hkind as [[Hb [f ->]]|[Hb [l ->]]].
  - rewrite (bool_decide_eq_true_2 _ (in_band_family _ Hb)).
    unfold FilterRecording.Wn. by rewrite (bool_decide_eq_true_2 _ Hb).
  - destruct (in_cutoff_family _ Hb) as [Hin Hout].
    rewrite (bool_decide_eq_true_2 _ Hin).
    unfold FilterRecording.Wn. by rewrite (bool_decide_eq_false_2 _ Hout).
Qed.

Lemma FilterRecording_band_kind_witness :
  @FilterRecording Bench.strict_scipy Bench.parent (BandFloat 300) "bandpass" 5
    "butter" "sos" 5%float None = Raise TypeError /\
  @FilterRecording Bench.strict_scipy Bench.parent (BandList [300; 6000]%float)
    "highpass" 5 "butter" "ba" 5%float None = Raise TypeError.
Proof.
  split.
  - apply (@FilterRecording_band_kind Bench.strict_scipy Bench.parent (BandFloat 300)
             "bandpass" 5 "butter" "sos" 5%float None); [by_decide|].
    left. split; [by_decide | by exists 300%float].
  - apply (@FilterRecording_band_kind Bench.strict_scipy Bench.parent
             (BandList [300; 6000]%float) "highpass" 5 "butter" "ba" 5%float None);
      [by_decide|].
    right. split; [by_decide | by exists [300; 6000]%float].
Defined.

(** The design frequencies of a well-formed band. *)
Lemma Wn_band (btype : string) (low high : float) (sf : number) :
  btype ∈ ["bandpass"; "bandstop"] ->
  FilterRecording.Wn (BandList [low; high]) btype sf =
    match kind_of sf with
    | python_float =>
        if (sf =? 0)%float then Raise ZeroDivisionError
        else Ok (BandList [low / sf * 2; high / sf * 2]%float)
    | numpy_float64 => Ok (BandList [low / sf * 2; high / sf * 2]%float)
    end.
Proof.
  intros Hb. unfold FilterRecording.Wn. rewrite (bool_decide_eq_true_2 _ Hb).
  cbn. unfold truediv_by, PyFloat.truediv.
  destruct (kind_of sf); [|reflexivity]. by destruct (sf =? 0)%float.
Qed.

Lemma Wn_cutoff (btype : string) (f : float) (sf : number) :
  btype ∉ ["bandpass"; "bandstop"] ->
  FilterRecording.Wn (BandFloat f) btype sf =
    match kind_of sf with
    | python_float =>
        if (sf =? 0)%float then Raise ZeroDivisionError
        else Ok (BandFloat (f / sf * 2)%float)
    | numpy_float64 => Ok (BandFloat (f / sf * 2)%float)
    end.
Proof.
  intros Hb. unfold FilterRecording.Wn. rewrite (bool_decide_eq_false_2 _ Hb).
  cbn. unfold truediv_by, PyFloat.truediv.
  destruct (kind_of sf); [|reflexivity]. by destruct (sf =? 0)%float.
Qed.

(** The notch constructor, when the normalised frequency or the design
    fails: nothing of [self] has been touched yet. *)
Lemma NotchFilterRecording_init_rejects `{SciPySignal} recording freq q margin_ms
    dtype e self :
  (w0 ← PyFloat.truediv freq (0.5 * get_sampling_frequency recording)%float;
   iirnotch w0 q) = Raise e ->
  NotchFilterRecording.__init__ recording freq q margin_ms dtype self = (Raise e, self).
Proof.
  unfold NotchFilterRecording.__init__.
  unfold mbind, method_bind, result_bind, call.
  destruct (PyFloat.truediv _ _) as [w0|e1]; [|by intros [= ->]].
  destruct (iirnotch _ _) as [[b a]|e2]; [discriminate|by intros [= ->]].
Qed.

(** X3: a sampling frequency of zero.  [FilterRecording] divides by what
    [get_sampling_frequency()] returns.  When that is a Python float equal
    to zero, with valid family and representation and a band of the right
    kind, it raises [ZeroDivisionError] before anything of [self] is set.
    When it is a [numpy.float64], the division raises nothing, even by
    zero: the quotients go to the coefficient design, and the constructor is
    the recording built from that design, or raises what the design or the
    margin conversion raises.  [NotchFilterRecording] first makes a Python
    float of the sampling frequency, and raises [ZeroDivisionError] whenever
    half of it is zero, whatever its kind. *)
Theorem zero_sampling_frequency `{SciPySignal} recording band btype filter_order
    ftype filter_mode margin_ms dtype freq q :
  (kind_of (get_sampling_frequency recording) = python_float ->
   (get_sampling_frequency recording =? 0)%float = true ->
   filter_mode ∈ ["sos"; "ba"] ->
   (btype ∈ ["bandpass"; "bandstop"] /\ (exists low high, band = BandList [low; high])) \/
   (btype ∈ ["lowpass"; "highpass"] /\ (exists f, band = BandFloat f)) ->
   FilterRecording recording band btype filter_order ftype filter_mode
     margin_ms dtype = Raise ZeroDivisionError /\
   forall self,
     FilterRecording.__init__ recording band btype filter_order ftype
       filter_mode margin_ms dtype self = (Raise ZeroDivisionError, self)) /\
  (kind_of (get_sampling_frequency recording) = numpy_float64 ->
   filter_mode ∈ ["sos"; "ba"] ->
   (forall low high,
      btype ∈ ["bandpass"; "bandstop"] ->
      FilterRecording recording (BandList [low; high]) btype filter_order ftype
        filter_mode margin_ms dtype =
        coeff ← iirfilter filter_order
                  (BandList [low / get_sampling_frequency recording * 2;
                             high / get_sampling_frequency recording * 2]%float)
                  false btype ftype filter_mode;
        margin ← margin_samples margin_ms (get_sampling_frequency recording);
        Ok (built recording dtype coeff filter_mode margin
              (FilterRecording_kwargs recording (BandList [low; high]) btype
                 filter_order ftype filter_mode margin_ms))) /\
   (forall f,
      btype ∈ ["lowpass"; "highpass"] ->
      FilterRecording recording (BandFloat f) btype filter_order ftype
        filter_mode margin_ms dtype =
        coeff ← iirfilter filter_order
                  (BandFloat (f / get_sampling_frequency recording * 2)%float)
                  false btype ftype filter_mode;
        margin ← margin_samples margin_ms (get_sampling_frequency recording);
        Ok (built recording dtype coeff filter_mode margin
              (FilterRecording_kwargs recording (BandFloat f) btype
                 filter_order ftype filter_mode margin_ms)))) /\
  ((0.5 * get_sampling_frequency recording =? 0)%float = true ->
   NotchFilterRecording recording freq q margin_ms dtype = Raise ZeroDivisionError /\
   forall self,
     NotchFilterRecording.__init__ recording freq q margin_ms dtype self =
       (Raise ZeroDivisionError, self)).
Proof.
  split; [|split].
  - intros Hkind Hsf Hm Hband. apply FilterRecording_rejects_with.
    rewrite (bool_decide_eq_true_2 _ Hm).
    destruct Hband as [[Hb (low & high & ->)]|[Hb [f ->]]].
    + rewrite (bool_decide_eq_true_2 _ (in_band_family _ Hb)).
      by rewrite Wn_band, Hkind, Hsf.
    + destruct (in_cutoff_family _ Hb) as [Hin Hout].
      rewrite (bool_decide_eq_true_2 _ Hin).
      by rewrite Wn_cutoff, Hkind, Hsf.
  - intros Hkind Hm. split.
    + intros low high Hb. rewrite FilterRecording_run.
      rewrite (bool_decide_eq_true_2 _ (in_band_family _ Hb)),
        (bool_decide_eq_true_2 _ Hm), (Wn_band _ _ _ _ Hb), Hkind.
      reflexivity.
    + intros f Hb. destruct (in_cutoff_family _ Hb) as [Hin Hout].
      rewrite FilterRecording_run.
      rewrite (bool_decide_eq_true_2 _ Hin), (bool_decide_eq_true_2 _ Hm),
        (Wn_cutoff _ _ _ Hout), Hkind.
      reflexivity.
  - intros Hfn.
    assert (forall self,
      NotchFilterRecording.__init__ recording freq q margin_ms dtype self =
        (Raise ZeroDivisionError, self)) as Hinit.
    { intros self. apply NotchFilterRecording_init_rejects.
      unfold PyFloat.truediv. by rewrite Hfn. }
    split; [|exact Hinit].
    unfold NotchFilterRecording, new. by rewrite Hinit.
Qed.

Lemma zero_sampling_frequency_witness :
  @FilterRecording Bench.strict_scipy (Bench.recording 0 int16) (BandFloat 300)
    "lowpass" 5 "butter" "sos" 5%float None = Raise ZeroDivisionError /\
  @FilterRecording Bench.strict_scipy (Bench.numpy_recording 0 int16)
    (BandList [300; 6000]%float) "bandpass" 5 "butter" "sos" 5%float None
    = Raise ValueError /\
  @FilterRecording Bench.strict_scipy (Bench.numpy_recording 0 int16) (BandFloat 300)
    "lowpass" 5 "butter" "sos" 5%float None = Raise ValueError /\
  @NotchFilterRecording Bench.strict_scipy (Bench.numpy_recording 0 int16) 50 30 5 None
    = Raise ZeroDivisionError.
Proof.
  split; [|split; [|split]].
  - apply (proj1 (@zero_sampling_frequency Bench.strict_scipy (Bench.recording 0 int16)
                    (BandFloat 300) "lowpass" 5 "butter" "sos" 5%float None
                    50%float 30%float));
      [reflexivity | reflexivity | by_decide |].
    right. split; [by_decide | by exists 300%float].
  - rewrite (proj1 (proj1 (proj2 (@zero_sampling_frequency Bench.strict_scipy
                                    (Bench.numpy_recording 0 int16) (BandFloat 300)
                                    "bandpass" 5 "butter" "sos" 5%float None
                                    50%float 30%float))
                      eq_refl ltac:(by_decide)) 300%float 6000%float ltac:(by_decide)).
    reflexivity.
  - rewrite (proj2 (proj1 (proj2 (@zero_sampling_frequency Bench.strict_scipy
                                    (Bench.numpy_recording 0 int16) (BandFloat 300)
                                    "lowpass" 5 "butter" "sos" 5%float None
                                    50%float 30%float))
                      eq_refl ltac:(by_decide)) 300%float ltac:(by_decide)).
    reflexivity.
  - apply (proj2 (proj2 (@zero_sampling_frequency Bench.strict_scipy
                           (Bench.numpy_recording 0 int16) (BandFloat 300) "lowpass"
                           5 "butter" "sos" 5%float None 50%float 30%float))).
    reflexivity.
Defined.

(** X4: an infeasible design surfaces as it is.  With valid arguments, the
    exception [iirfilter] raises for the normalised frequencies is the one
    [FilterRecording] raises, and the exception [iirnotch] raises is the one
    [NotchFilterRecording] raises; [self] is untouched in both cases. *)
Theorem design_failure_surfaces `{SciPySignal} recording band btype filter_order
    ftype filter_mode margin_ms dtype freq q e :
  (forall Wn,
     btype ∈ ["bandpass"; "lowpass"; "highpass"; "bandstop"] ->
     filter_mode ∈ ["sos"; "ba"] ->
     FilterRecording.Wn band btype (get_sampling_frequency recording) = Ok Wn ->
     iirfilter filter_order Wn false btype ftype filter_mode = Raise e ->
     FilterRecording recording band btype filter_order ftype filter_mode
       margin_ms dtype = Raise e /\
     forall self,
       FilterRecording.__init__ recording band btype filter_order ftype
         filter_mode margin_ms dtype self = (Raise e, self)) /\
  ((0.5 * get_sampling_frequency recording =? 0)%float = false ->
   iirnotch (freq / (0.5 * get_sampling_frequency recording))%float q = Raise e ->
   NotchFilterRecording recording freq q margin_ms dtype = Raise e /\
   forall self,
     NotchFilterRecording.__init__ recording freq q margin_ms dtype self =
       (Raise e, self)).
Proof.
  split.
  - intros Wn Hb Hm HWn Hdesign. apply FilterRecording_rejects_with.
    rewrite (bool_decide_eq_true_2 _ Hb), (bool_decide_eq_true_2 _ Hm), HWn.
    exact Hdesign.
  - intros Hfn Hdesign.
    assert (forall self,
      NotchFilterRecording.__init__ recording freq q margin_ms dtype self =
        (Raise e, self)) as Hinit.
    { intros self. apply NotchFilterRecording_init_rejects.
      unfold PyFloat.truediv. rewrite Hfn. exact Hdesign. }
    split; [|exact Hinit].
    unfold NotchFilterRecording, new. by rewrite Hinit.
Qed.

Lemma design_failure_surfaces_witness :
  @FilterRecording Bench.strict_scipy Bench.parent (BandList [300; 20000]%float)
    "bandpass" 5 "butter" "sos" 5%float None = Raise ValueError /\
  @NotchFilterRecording Bench.strict_scipy Bench.parent 15000 30 5 None
    = Raise ValueError.
Proof.
  split.
  - eapply (proj1 (@design_failure_surfaces Bench.strict_scipy Bench.parent
                     (BandList [300; 20000]%float) "bandpass" 5 "butter" "sos"
                     5%float None 15000%float 30%float ValueError));
      [by_decide | by_decide | reflexivity | reflexivity].
  - apply (proj2 (@design_failure_surfaces Bench.strict_scipy Bench.parent
                    (BandList [300; 20000]%float) "bandpass" 5 "butter" "sos"
                    5%float None 15000%float 30%float ValueError));
      reflexivity.
Defined.

Lemma int_raises (x : float) (e : exn) :
  PyFloat.int x = Raise e -> e = OverflowError \/ e = ValueError.
Proof.
  unfold PyFloat.int. destruct (Prim2SF x); intros [= <-]; auto.
Qed.

(** X5: the margin is converted after the base class is initialised.  When
    [margin_ms * sf / 1000.] is infinite or not a number, [int] raises
    [OverflowError] or [ValueError] and so does the constructor; by then
    [__init__] has set the element type and the [is_filtered] annotation of
    [self], but has added no segment and has not set [_kwargs]. *)
Theorem margin_failure_is_late `{SciPySignal} recording band btype filter_order
    ftype filter_mode margin_ms dtype Wn coeff e :
  btype ∈ ["bandpass"; "lowpass"; "highpass"; "bandstop"] ->
  filter_mode ∈ ["sos"; "ba"] ->
  FilterRecording.Wn band btype (get_sampling_frequency recording) = Ok Wn ->
  iirfilter filter_order Wn false btype ftype filter_mode = Ok coeff ->
  margin_samples margin_ms (get_sampling_frequency recording) = Raise e ->
  (e = OverflowError \/ e = ValueError) /\
  FilterRecording recording band btype filter_order ftype filter_mode
    margin_ms dtype = Raise e /\
  forall self, exists self',
    FilterRecording.__init__ recording band btype filter_order ftype
      filter_mode margin_ms dtype self = (Raise e, self') /\
    _dtype self' = Some (default (get_dtype recording) dtype) /\
    _annotations self' !! "is_filtered" = Some (PBool true) /\
    _segments self' = _segments self /\
    _kwargs self' = _kwargs self.
Proof.
  intros Hb Hm HWn Hdesign Hmargin.
  split; [by eapply int_raises|]. split.
  - rewrite FilterRecording_run.
    rewrite (bool_decide_eq_true_2 _ Hb), (bool_decide_eq_true_2 _ Hm), HWn.
    unfold mbind, result_bind, assert. cbn beta iota.
    by rewrite Hdesign, Hmargin.
  - intros self. eexists. split.
    + unfold FilterRecording.__init__.
      unfold mbind, method_bind, result_bind, call.
      rewrite (bool_decide_eq_true_2 _ Hb), (bool_decide_eq_true_2 _ Hm).
      cbn [assert]. rewrite HWn, Hdesign. cbn beta iota.
      unfold BasePreprocessor.__init__, BasePreprocessor.get_dtype,
        BasePreprocessor.annotate. cbn beta iota.
      cbn [_parent_recording _dtype _annotations _segments _kwargs].
      rewrite Hmargin. reflexivity.
    + cbn. split; [reflexivity|]. split; [apply lookup_insert_eq|]. by split.
Qed.

Lemma margin_failure_is_late_witness :
  @FilterRecording Bench.scipy Bench.parent (BandList [300; 6000]%float) "bandpass" 5
    "butter" "sos" infinity None = Raise OverflowError /\
  @FilterRecording Bench.scipy Bench.parent (BandList [300; 6000]%float) "bandpass" 5
    "butter" "sos" nan None = Raise ValueError.
Proof.
  split.
  - eapply (@margin_failure_is_late Bench.scipy Bench.parent (BandList [300; 6000]%float)
              "bandpass" 5 "butter" "sos" infinity None);
      [by_decide | by_decide | reflexivity | reflexivity | reflexivity].
  - eapply (@margin_failure_is_late Bench.scipy Bench.parent (BandList [300; 6000]%float)
              "bandpass" 5 "butter" "sos" nan None);
      [by_decide | by_decide | reflexivity | reflexivity | reflexivity].
Defined.

(** X6: frequencies are normalised by half the sampling frequency before the
    design.  On a non-zero sampling frequency [sf], with a valid
    representation, a ['bandpass'] or ['bandstop'] filter of band
    [[low, high]] is the recording built from
    [iirfilter(N, [low / sf * 2, high / sf * 2], ...)], and a ['lowpass'] or
    ['highpass'] filter of cutoff [f] the one built from
    [iirfilter(N, f / sf * 2, ...)]; it exists exactly when that design and
    the margin conversion return. *)
Theorem FilterRecording_normalises `{SciPySignal} recording btype filter_order
    ftype filter_mode margin_ms dtype :
  (get_sampling_frequency recording =? 0)%float = false ->
  filter_mode ∈ ["sos"; "ba"] ->
  (forall low high,
     btype ∈ ["bandpass"; "bandstop"] ->
     FilterRecording recording (BandList [low; high]) btype filter_order ftype
       filter_mode margin_ms dtype =
       coeff ← iirfilter filter_order
                 (BandList [low / get_sampling_frequency recording * 2;
                            high / get_sampling_frequency recording * 2]%float)
                 false btype ftype filter_mode;
       margin ← margin_samples margin_ms (get_sampling_frequency recording);
       Ok (built recording dtype coeff filter_mode margin
             (FilterRecording_kwargs recording (BandList [low; high]) btype
                filter_order ftype filter_mode margin_ms))) /\
  (forall f,
     btype ∈ ["lowpass"; "highpass"] ->
     FilterRecording recording (BandFloat f) btype filter_order ftype
       filter_mode margin_ms dtype =
       coeff ← iirfilter filter_order
                 (BandFloat (f / get_sampling_frequency recording * 2)%float)
                 false btype ftype filter_mode;
       margin ← margin_samples margin_ms (get_sampling_frequency recording);
       Ok (built recording dtype coeff filter_mode margin
             (FilterRecording_kwargs recording (BandFloat f) btype
                filter_order ftype filter_mode margin_ms))).
Proof.
  intros Hsf Hm. split.
  - intros low high Hb. rewrite FilterRecording_run.
    rewrite (bool_decide_eq_true_2 _ (in_band_family _ Hb)),
      (bool_decide_eq_true_2 _ Hm), (Wn_band _ _ _ _ Hb), Hsf.
    by destruct (kind_of _).
  - intros f Hb. destruct (in_cutoff_family _ Hb) as [Hin Hout].
    rewrite FilterRecording_run.
    rewrite (bool_decide_eq_true_2 _ Hin), (bool_decide_eq_true_2 _ Hm),
      (Wn_cutoff _ _ _ Hout), Hsf.
    by destruct (kind_of _).
Qed.

Lemma FilterRecording_normalises_witness :
  @FilterRecording Bench.strict_scipy Bench.parent (BandList [300; 6000]%float)
    "bandpass" 5 "butter" "sos" 5%float None =
    (coeff ← @iirfilter Bench.strict_scipy 5
               (BandList [300 / 30000 * 2; 6000 / 30000 * 2]%float)
               false "bandpass" "butter" "sos";
     margin ← margin_samples 5 30000;
     Ok (built Bench.parent None coeff "sos" margin
           (FilterRecording_kwargs Bench.parent (BandList [300; 6000]%float)
              "bandpass" 5 "butter" "sos" 5))) /\
  @FilterRecording Bench.strict_scipy Bench.parent (BandFloat 300) "highpass" 5
    "butter" "ba" 5%float None =
    (coeff ← @iirfilter Bench.strict_scipy 5 (BandFloat (300 / 30000 * 2)%float)
               false "highpass" "butter" "ba";
     margin ← margin_samples 5 30000;
     Ok (built Bench.parent None coeff "ba" margin
           (FilterRecording_kwargs Bench.parent (BandFloat 300) "highpass" 5
              "butter" "ba" 5))).
Proof.
  split.
  - apply (proj1 (@FilterRecording_normalises Bench.strict_scipy Bench.parent
                    "bandpass" 5 "butter" "sos" 5%float None eq_refl
                    ltac:(by_decide))).
    by_decide.
  - apply (proj2 (@FilterRecording_normalises Bench.strict_scipy Bench.parent
                    "highpass" 5 "butter" "ba" 5%float None eq_refl
                    ltac:(by_decide))).
    by_decide.
Defined.

(** X7: [NotchFilterRecording] returns a recording exactly when half the
    sampling frequency is not zero, [iirnotch] returns a pair for
    [freq / fn] and [q], and the margin converts; the recording is then the
    one built from that pair under the tag ['ba']. *)
Theorem NotchFilterRecording_returns `{SciPySignal} recording freq q margin_ms
    dtype o :
  NotchFilterRecording recording freq q margin_ms dtype = Ok o <->
  exists b a margin,
    (0.5 * get_sampling_frequency recording =? 0)%float = false /\
    iirnotch (freq / (0.5 * get_sampling_frequency recording))%float q = Ok (b, a) /\
    margin_samples margin_ms (get_sampling_frequency recording) = Ok margin /\
    o = built recording dtype (Ba b a) "ba" margin
          (NotchFilterRecording_kwargs recording freq q margin_ms).
Proof.
  rewrite NotchFilterRecording_run. unfold PyFloat.truediv. split.
  - destruct (_ =? 0)%float; [discriminate|]. cbn.
    intros ([b a] & Hn & (m & Hm & [= <-])%bind_ok)%bind_ok.
    by exists b, a, m.
  - intros (b & a & m & -> & Hn & Hm & ->). cbn.
    unfold mbind, result_bind in *. by rewrite Hn, Hm.
Qed.

Lemma NotchFilterRecording_returns_witness :
  @NotchFilterRecording Bench.strict_scipy Bench.parent 3000 30 5 (Some float32)
    = Ok (built Bench.parent (Some float32) (Ba [0.5%float] [1%float]) "ba" 150
            (NotchFilterRecording_kwargs Bench.parent 3000 30 5)).
Proof.
  apply (proj2 (@NotchFilterRecording_returns Bench.strict_scipy Bench.parent
                  3000%float 30%float 5%float (Some float32) _)).
  exists [0.5%float], [1%float], 150. repeat split; reflexivity.
Defined.

(** * Further properties of the built recordings *)

Lemma built_shares recording d c mode m kwargs s1 s2 :
  s1 ∈ _segments (built recording d c mode m kwargs) ->
  s2 ∈ _segments (built recording d c mode m kwargs) ->
  coeff s1 = coeff s2 /\ filter_mode s1 = filter_mode s2 /\
  margin s1 = margin s2 /\ dtype s1 = dtype s2.
Proof.
  cbn. intros (p1 & -> & _)%list_elem_of_fmap (p2 & -> & _)%list_elem_of_fmap.
  by cbn.
Qed.

(** X8: the filter is designed once and shared.  In a recording built by any
    of the three constructors, the segments wrap the segments of the parent,
    one each and in the parent's order, and any two of them have the same
    coefficients, representation tag, margin and element type. *)
Theorem segments_share_design `{SciPySignal} recording margin_ms d
    band btype filter_order ftype mode
    freq_min freq_max filter_kwargs freq q o :
  FilterRecording recording band btype filter_order ftype mode margin_ms d = Ok o \/
  BandpassFilterRecording recording freq_min freq_max margin_ms d
    filter_kwargs = Ok o \/
  NotchFilterRecording recording freq q margin_ms d = Ok o ->
  parent_recording_segment <$> _segments o = _recording_segments recording /\
  forall s1 s2, s1 ∈ _segments o -> s2 ∈ _segments o ->
    coeff s1 = coeff s2 /\ filter_mode s1 = filter_mode s2 /\
    margin s1 = margin s2 /\ dtype s1 = dtype s2.
Proof.
  intros Hbuilt.
  assert (exists c tag m kw, o = built recording d c tag m kw)
    as (c & tag & m & kw & ->).
  { destruct Hbuilt as [Hf|[Hb|Hn]].
    - apply FilterRecording_built in Hf as (c & m & _ & _ & ->). eauto.
    - apply BandpassFilterRecording_built in Hb as (c & m & _ & _ & ->). eauto.
    - apply NotchFilterRecording_built in Hn as (w0 & b & a & m & _ & _ & _ & ->).
      eauto. }
  split; [apply built_parents|]. intros s1 s2. apply built_shares.
Qed.

Lemma segments_share_design_witness :
  parent_recording_segment <$> _segments (Bench.bandpass None)
    = _recording_segments Bench.parent /\
  forall s1 s2,
    s1 ∈ _segments (Bench.bandpass None) -> s2 ∈ _segments (Bench.bandpass None) ->
    coeff s1 = coeff s2 /\ filter_mode s1 = filter_mode s2 /\
    margin s1 = margin s2 /\ dtype s1 = dtype s2.
Proof.
  apply (@segments_share_design Bench.scipy Bench.parent 5%float None
           (BandFloat 0) "lowpass" 0 "butter" "sos" 300%float 6000%float
           no_design_kwargs 0%float 0%float).
  right. left. reflexivity.
Defined.

(** X9: [BandpassFilterRecording] is [FilterRecording] on the band
    [[freq_min, freq_max]], with the defaults of the generic signature for
    the keywords not passed, and differs from it only in the parameters it
    retains: same exception when the generic constructor raises, same
    parent, element type, annotations and segments when it returns. *)
Theorem BandpassFilterRecording_is_generic `{SciPySignal} recording freq_min
    freq_max margin_ms d filter_kwargs :
  BandpassFilterRecording recording freq_min freq_max margin_ms d filter_kwargs =
    (fun o =>
       (BasePreprocessor.set_kwargs
          (BandpassFilterRecording_kwargs recording freq_min freq_max margin_ms
             filter_kwargs) o).2)
    <$> FilterRecording recording (BandList [freq_min; freq_max])
          (default "bandpass" (dk_btype filter_kwargs))
          (default 5 (dk_filter_order filter_kwargs))
          (default "butter" (dk_ftype filter_kwargs))
          (default "sos" (dk_filter_mode filter_kwargs))
          margin_ms d /\
  forall o,
    BandpassFilterRecording recording freq_min freq_max margin_ms d
      filter_kwargs = Ok o ->
    exists generic,
      FilterRecording recording (BandList [freq_min; freq_max])
        (default "bandpass" (dk_btype filter_kwargs))
        (default 5 (dk_filter_order filter_kwargs))
        (default "butter" (dk_ftype filter_kwargs))
        (default "sos" (dk_filter_mode filter_kwargs))
        margin_ms d = Ok generic /\
      _parent_recording o = _parent_recording generic /\
      _dtype o = _dtype generic /\
      _annotations o = _annotations generic /\
      _segments o = _segments generic.
Proof.
  assert (BandpassFilterRecording recording freq_min freq_max margin_ms d filter_kwargs =
    (fun o =>
       (BasePreprocessor.set_kwargs
          (BandpassFilterRecording_kwargs recording freq_min freq_max margin_ms
             filter_kwargs) o).2)
    <$> FilterRecording recording (BandList [freq_min; freq_max])
          (default "bandpass" (dk_btype filter_kwargs))
          (default 5 (dk_filter_order filter_kwargs))
          (default "butter" (dk_ftype filter_kwargs))
          (default "sos" (dk_filter_mode filter_kwargs))
          margin_ms d) as Heq.
  { rewrite BandpassFilterRecording_run, FilterRecording_run.
    unfold mbind, result_bind, fmap, result_fmap.
    repeat match goal with
           | |- match ?r with _ => _ end = _ => destruct r; try reflexivity
           end. }
  split; [exact Heq|].
  intros o. rewrite Heq. intros (generic & Hg & ->)%fmap_ok.
  exists generic. by repeat split.
Qed.

Lemma BandpassFilterRecording_is_generic_witness :
  exists generic,
    @FilterRecording Bench.scipy Bench.parent (BandList [300; 6000]%float)
      "bandpass" 5 "butter" "sos" 5%float None = Ok generic /\
    _parent_recording (Bench.bandpass None) = _parent_recording generic /\
    _dtype (Bench.bandpass None) = _dtype generic /\
    _annotations (Bench.bandpass None) = _annotations generic /\
    _segments (Bench.bandpass None) = _segments generic.
Proof.
  apply (proj2 (@BandpassFilterRecording_is_generic Bench.scipy Bench.parent
                  300%float 6000%float 5%float None no_design_kwargs)).
  reflexivity.
Defined.

(** * Further properties of the retained parameters *)

(** A key that is none of the keys inserted is absent. *)
Ltac absent_key :=
  destruct_and?; repeat (rewrite lookup_insert_ne by congruence); apply lookup_empty.

(** X10: what [FilterRecording] and [NotchFilterRecording] retain.  The
    [_kwargs] of a generic filter hold the parent description and the six
    arguments [band], [btype], [filter_order], [ftype], [filter_mode] and
    [margin_ms] as they were passed, and nothing else; those of a notch
    filter hold the parent description, [freq], [q] and [margin_ms], and
    nothing else. *)
Theorem retained_parameters `{SciPySignal} recording margin_ms d
    band btype filter_order ftype mode freq q :
  (forall o,
     FilterRecording recording band btype filter_order ftype mode margin_ms d = Ok o ->
     _kwargs o !! "recording" = Some (to_dict recording) /\
     _kwargs o !! "band" = Some (Band.to_py band) /\
     _kwargs o !! "btype" = Some (PStr btype) /\
     _kwargs o !! "filter_order" = Some (PInt filter_order) /\
     _kwargs o !! "ftype" = Some (PStr ftype) /\
     _kwargs o !! "filter_mode" = Some (PStr mode) /\
     _kwargs o !! "margin_ms" = Some (PFloat margin_ms) /\
     forall key : string,
       key ∉ ["recording"; "band"; "btype"; "filter_order"; "ftype";
              "filter_mode"; "margin_ms"] ->
       _kwargs o !! key = None) /\
  (forall o,
     NotchFilterRecording recording freq q margin_ms d = Ok o ->
     _kwargs o !! "recording" = Some (to_dict recording) /\
     _kwargs o !! "freq" = Some (PFloat freq) /\
     _kwargs o !! "q" = Some (PFloat q) /\
     _kwargs o !! "margin_ms" = Some (PFloat margin_ms) /\
     forall key : string,
       key ∉ ["recording"; "freq"; "q"; "margin_ms"] ->
       _kwargs o !! key = None).
Proof.
  split.
  - intros o (c & m & _ & _ & ->)%FilterRecording_built.
    repeat (split; [reflexivity|]).
    intros key Hkey. rewrite !not_elem_of_cons in Hkey.
    cbn [_kwargs built]. unfold FilterRecording_kwargs. absent_key.
  - intros o (w0 & b & a & m & _ & _ & _ & ->)%NotchFilterRecording_built.
    repeat (split; [reflexivity|]).
    intros key Hkey. rewrite !not_elem_of_cons in Hkey.
    cbn [_kwargs built]. unfold NotchFilterRecording_kwargs. absent_key.
Qed.

Lemma retained_parameters_witness :
  (_kwargs (Bench.generic None) !! "recording" = Some (to_dict Bench.parent) /\
   _kwargs (Bench.generic None) !! "band" = Some (PList [PFloat 300; PFloat 6000]) /\
   _kwargs (Bench.generic None) !! "btype" = Some (PStr "bandpass") /\
   _kwargs (Bench.generic None) !! "filter_order" = Some (PInt 5) /\
   _kwargs (Bench.generic None) !! "ftype" = Some (PStr "butter") /\
   _kwargs (Bench.generic None) !! "filter_mode" = Some (PStr "sos") /\
   _kwargs (Bench.generic None) !! "margin_ms" = Some (PFloat 5) /\
   forall key : string,
     key ∉ ["recording"; "band"; "btype"; "filter_order"; "ftype";
            "filter_mode"; "margin_ms"] ->
     _kwargs (Bench.generic None) !! key = None) /\
  (_kwargs (Bench.notch None) !! "recording" = Some (to_dict Bench.parent) /\
   _kwargs (Bench.notch None) !! "freq" = Some (PFloat 3000) /\
   _kwargs (Bench.notch None) !! "q" = Some (PFloat 30) /\
   _kwargs (Bench.notch None) !! "margin_ms" = Some (PFloat 5) /\
   forall key : string,
     key ∉ ["recording"; "freq"; "q"; "margin_ms"] ->
     _kwargs (Bench.notch None) !! key = None).
Proof.
  split.
  - apply (proj1 (@retained_parameters Bench.scipy Bench.parent 5%float None
                    (BandList [300; 6000]%float) "bandpass" 5 "butter" "sos"
                    3000%float 30%float)).
    reflexivity.
  - apply (proj2 (@retained_parameters Bench.scipy Bench.parent 5%float None
                    (BandList [300; 6000]%float) "bandpass" 5 "butter" "sos"
                    3000%float 30%float)).
    reflexivity.
Defined.

(** X11: what [BandpassFilterRecording] retains.  Its [_kwargs] hold the
    parent description, [freq_min], [freq_max] and [margin_ms], and each of
    [btype], [filter_order], [ftype] and [filter_mode] exactly when it was
    passed through [**filter_kwargs], with the value passed: a default that
    was applied is not written down, and there is no ["band"] entry. *)
Theorem BandpassFilterRecording_retains `{SciPySignal} recording freq_min freq_max
    margin_ms d filter_kwargs o :
  BandpassFilterRecording recording freq_min freq_max margin_ms d
    filter_kwargs = Ok o ->
  _kwargs o !! "recording" = Some (to_dict recording) /\
  _kwargs o !! "freq_min" = Some (PFloat freq_min) /\
  _kwargs o !! "freq_max" = Some (PFloat freq_max) /\
  _kwargs o !! "margin_ms" = Some (PFloat margin_ms) /\
  _kwargs o !! "btype" = PStr <$> dk_btype filter_kwargs /\
  _kwargs o !! "filter_order" = PInt <$> dk_filter_order filter_kwargs /\
  _kwargs o !! "ftype" = PStr <$> dk_ftype filter_kwargs /\
  _kwargs o !! "filter_mode" = PStr <$> dk_filter_mode filter_kwargs /\
  forall key : string,
    key ∉ ["recording"; "freq_min"; "freq_max"; "margin_ms"; "btype";
           "filter_order"; "ftype"; "filter_mode"] ->
    _kwargs o !! key = None.
Proof.
  intros (c & m & _ & _ & ->)%BandpassFilterRecording_built.
  cbn [_kwargs built]. unfold BandpassFilterRecording_kwargs, design_kwargs_dict.
  destruct filter_kwargs as [[bt|] [fo|] [ft|] [fm|]]; cbn [dk_btype dk_filter_order
    dk_ftype dk_filter_mode];
    (repeat (split; [reflexivity|]));
    intros key Hkey; rewrite !not_elem_of_cons in Hkey;
    (apply lookup_union_None_2; absent_key).
Qed.

Lemma BandpassFilterRecording_retains_witness :
  _kwargs (Bench.bandpass None) !! "recording" = Some (to_dict Bench.parent) /\
  _kwargs (Bench.bandpass None) !! "freq_min" = Some (PFloat 300) /\
  _kwargs (Bench.bandpass None) !! "freq_max" = Some (PFloat 6000) /\
  _kwargs (Bench.bandpass None) !! "margin_ms" = Some (PFloat 5) /\
  _kwargs (Bench.bandpass None) !! "btype" = None /\
  _kwargs (Bench.bandpass None) !! "filter_order" = None /\
  _kwargs (Bench.bandpass None) !! "ftype" = None /\
  _kwargs (Bench.bandpass None) !! "filter_mode" = None /\
  forall key : string,
    key ∉ ["recording"; "freq_min"; "freq_max"; "margin_ms"; "btype";
           "filter_order"; "ftype"; "filter_mode"] ->
    _kwargs (Bench.bandpass None) !! key = None.
Proof.
  apply (@BandpassFilterRecording_retains Bench.scipy Bench.parent 300%float
           6000%float 5%float None no_design_kwargs).
  reflexivity.
Defined.

(** Every lookup at a literal key, by evaluation. *)
Ltac eval_lookups :=
  repeat match goal with
         | |- context [@lookup string pyval _ _ ?k ?m] =>
             let v := eval vm_compute in (m !! k) in
             change (m !! k) with v
         end.

Section Rebuilding.
Context `{SciPySignal}.

Lemma BandpassFilterRecording_rebuilt recording freq_min freq_max margin_ms d
    filter_kwargs o :
  BandpassFilterRecording recording freq_min freq_max margin_ms d
    filter_kwargs = Ok o ->
  BandpassFilterRecording_from_kwargs recording (_kwargs o) =
  BandpassFilterRecording recording freq_min freq_max margin_ms None filter_kwargs.
Proof.
  intros (c & m & _ & _ & ->)%BandpassFilterRecording_built.
  unfold BandpassFilterRecording_from_kwargs. cbn [_kwargs built].
  unfold Kwargs.check_names, Kwargs.keywords, Kwargs.arg.
  destruct filter_kwargs as [[bt|] [fo|] [ft|] [fm|]];
    (replace (bool_decide _) with true by (vm_compute; reflexivity));
    eval_lookups; reflexivity.
Qed.

Lemma NotchFilterRecording_rebuilt recording freq q margin_ms d o :
  NotchFilterRecording recording freq q margin_ms d = Ok o ->
  NotchFilterRecording_from_kwargs recording (_kwargs o) =
  NotchFilterRecording recording freq q margin_ms None.
Proof.
  intros (w0 & b & a & m & _ & _ & _ & ->)%NotchFilterRecording_built.
  unfold NotchFilterRecording_from_kwargs. cbn [_kwargs built].
  unfold Kwargs.check_names, Kwargs.keywords, Kwargs.arg.
  replace (bool_decide _) with true by (vm_compute; reflexivity).
  eval_lookups. reflexivity.
Qed.
End Rebuilding.

(** X12: with [dtype=None] the retained parameters rebuild the recording.
    Each variant constructed without an explicit element type, called again
    on the same parent with the keywords of its [_kwargs], gives the very
    same recording: parent, element type, annotation, segments and
    [_kwargs]. *)
Theorem rebuilt_without_dtype `{SciPySignal} recording margin_ms
    band btype filter_order ftype mode
    freq_min freq_max filter_kwargs freq q o :
  (FilterRecording recording band btype filter_order ftype mode margin_ms None = Ok o ->
   FilterRecording_from_kwargs recording (_kwargs o) = Ok o) /\
  (BandpassFilterRecording recording freq_min freq_max margin_ms None
     filter_kwargs = Ok o ->
   BandpassFilterRecording_from_kwargs recording (_kwargs o) = Ok o) /\
  (NotchFilterRecording recording freq q margin_ms None = Ok o ->
   NotchFilterRecording_from_kwargs recording (_kwargs o) = Ok o).
Proof.
  split; [|split]; intros Hbuilt.
  - by rewrite (FilterRecording_rebuilt _ _ _ _ _ _ _ _ _ Hbuilt).
  - by rewrite (BandpassFilterRecording_rebuilt _ _ _ _ _ _ _ Hbuilt).
  - by rewrite (NotchFilterRecording_rebuilt _ _ _ _ _ _ Hbuilt).
Qed.

Lemma rebuilt_without_dtype_witness :
  @FilterRecording_from_kwargs Bench.scipy Bench.parent (_kwargs (Bench.generic None))
    = Ok (Bench.generic None) /\
  @BandpassFilterRecording_from_kwargs Bench.scipy Bench.parent
    (_kwargs (Bench.bandpass None)) = Ok (Bench.bandpass None) /\
  @NotchFilterRecording_from_kwargs Bench.scipy Bench.parent (_kwargs (Bench.notch None))
    = Ok (Bench.notch None).
Proof.
  split; [|split].
  - apply (proj1 (@rebuilt_without_dtype Bench.scipy Bench.parent 5%float
                    (BandList [300; 6000]%float) "bandpass" 5 "butter" "sos"
                    0%float 0%float no_design_kwargs 0%float 0%float _)).
    reflexivity.
  - apply (proj1 (proj2 (@rebuilt_without_dtype Bench.scipy Bench.parent 5%float
                           (BandFloat 0) "lowpass" 0 "butter" "sos"
                           300%float 6000%float no_design_kwargs 0%float 0%float _))).
    reflexivity.
  - apply (proj2 (proj2 (@rebuilt_without_dtype Bench.scipy Bench.parent 5%float
                           (BandFloat 0) "lowpass" 0 "butter" "sos"
                           0%float 0%float no_design_kwargs 3000%float 30%float _))).
    reflexivity.
Defined.

(** * Further properties of the dispatcher and of the segment *)

(** X13: [filter] returns [None] only for an engine it does not know, and
    with ['scipy'] it is [FilterRecording] on the keywords given: the same
    recording when the constructor returns one, the same exception when it
    raises. *)
Theorem filter_dispatch `{SciPySignal, OpenCL} recording engine kwargs :
  (filter recording engine kwargs = Ok None <->
   engine <> "scipy" /\ engine <> "opencl") /\
  (forall o,
     filter recording "scipy" kwargs = Ok (Some o) <->
     FilterRecording_kw recording kwargs = Ok o) /\
  (forall e,
     filter recording "scipy" kwargs = Raise e <->
     FilterRecording_kw recording kwargs = Raise e).
Proof.
  split; [|split].
  - unfold filter. split.
    + destruct (decide (engine = "scipy")) as [->|Hs].
      { rewrite bool_decide_eq_true_2 by done. unfold fmap, result_fmap.
        by destruct (FilterRecording_kw _ _). }
      rewrite (bool_decide_eq_false_2 _ Hs).
      destruct (decide (engine = "opencl")) as [->|Ho]; [|done].
      rewrite bool_decide_eq_true_2 by done. unfold fmap, result_fmap.
      by destruct (FilterOpenCLRecording _ _).
    + intros [Hs Ho].
      by rewrite (bool_decide_eq_false_2 _ Hs), (bool_decide_eq_false_2 _ Ho).
  - intros o. unfold filter. rewrite bool_decide_eq_true_2 by done.
    unfold fmap, result_fmap.
    destruct (FilterRecording_kw _ _); split; congruence.
  - intros e. unfold filter. rewrite bool_decide_eq_true_2 by done.
    unfold fmap, result_fmap.
    destruct (FilterRecording_kw _ _); split; congruence.
Qed.

Lemma filter_dispatch_witness :
  @filter Bench.scipy Bench.opencl Bench.parent "cuda" Bench.no_kwargs = Ok None /\
  @filter Bench.scipy Bench.opencl Bench.parent "scipy" Bench.no_kwargs
    = Ok (Some (Bench.generic None)).
Proof.
  split.
  - apply (proj1 (@filter_dispatch Bench.scipy Bench.opencl Bench.parent "cuda"
                    Bench.no_kwargs)).
    split; by_decide.
  - apply (proj1 (proj2 (@filter_dispatch Bench.scipy Bench.opencl Bench.parent
                           "scipy" Bench.no_kwargs))).
    reflexivity.
Defined.

(** X14: the trimming step never fails.  When the two margins together
    reach or exceed the number of rows of the filtered buffer, the slices
    of [get_traces] leave no row, and the columns are kept. *)
Theorem trim_overshoot (x : ndarray) (left_margin right_margin : Z) :
  0 <= left_margin -> 0 <= right_margin ->
  Z.of_nat (nrows x) <= left_margin + right_margin ->
  rows (FilterRecordingSegment.trim x left_margin right_margin) = [] /\
  ncols (FilterRecordingSegment.trim x left_margin right_margin) = ncols x.
Proof.
  intros Hl Hr Hn. split; [|apply trim_ncols].
  unfold FilterRecordingSegment.trim, nrows in *.
  destruct (Z.ltb_spec 0 right_margin) as [Hpos|Hzero];
    cbn [slice_rows rows]; unfold slice; cbn [from_option]; unfold slice_bound.
  - destruct (Z.ltb_spec left_margin 0), (Z.ltb_spec (- right_margin) 0); try lia.
    match goal with |- take ?n _ = _ => replace n with 0%nat by lia end.
    reflexivity.
  - destruct (Z.ltb_spec left_margin 0); try lia.
    match goal with |- take ?n _ = _ => replace n with 0%nat by lia end.
    reflexivity.
Qed.

Lemma trim_overshoot_witness :
  rows (FilterRecordingSegment.trim Bench.five_rows 3 4) = [] /\
  ncols (FilterRecordingSegment.trim Bench.five_rows 3 4) = 1%nat.
Proof.
  apply (trim_overshoot Bench.five_rows 3 4); [lia | lia | vm_compute; discriminate].
Defined.

(** X15: how [get_traces] fails.  An exception of the parent's read, or of
    the scipy filter, is raised as it is.  When the parent's read returns, a
    tag other than ['sos'] and ['ba'] ends in [UnboundLocalError], and a tag
    ['ba'] over an array of sections that does not have exactly two rows
    ends in [ValueError], from [b, a = self.coeff]. *)
Theorem get_traces_failures `{Numpy, SciPySignal} self start_frame end_frame
    channel_indices :
  (forall e,
     get_chunk_with_margin (parent_recording_segment self) start_frame end_frame
       channel_indices (margin self) = Raise e ->
     FilterRecordingSegment.get_traces self start_frame end_frame channel_indices
       = Raise e) /\
  (forall chunk left_margin right_margin,
     get_chunk_with_margin (parent_recording_segment self) start_frame end_frame
       channel_indices (margin self) = Ok (chunk, left_margin, right_margin) ->
     (forall e,
        FilterRecordingSegment.filtered_traces self chunk = Raise e ->
        FilterRecordingSegment.get_traces self start_frame end_frame channel_indices
          = Raise e) /\
     (filter_mode self <> "sos" -> filter_mode self <> "ba" ->
      FilterRecordingSegment.get_traces self start_frame end_frame channel_indices
        = Raise UnboundLocalError) /\
     (forall sections,
        filter_mode self = "ba" -> coeff self = Sos sections ->
        length sections <> 2%nat ->
        FilterRecordingSegment.get_traces self start_frame end_frame channel_indices
          = Raise ValueError)).
Proof.
  split.
  - intros e He. unfold FilterRecordingSegment.get_traces. by rewrite He.
  - intros chunk l r Hchunk. split; [|split].
    + intros e He. by rewrite (get_traces_chunk _ _ _ _ _ _ _ Hchunk), He.
    + intros Hsos Hba. by eapply get_traces_unbound.
    + intros sections Hmode Hcoeff Hlen.
      rewrite (get_traces_chunk _ _ _ _ _ _ _ Hchunk).
      unfold FilterRecordingSegment.filtered_traces. rewrite Hmode, Hcoeff. cbn.
      by destruct sections as [|? [|? [|? ?]]].
Qed.

Lemma get_traces_failures_witness :
  @FilterRecordingSegment.get_traces Bench.numpy Bench.scipy
    Bench.unreadable_segment 3 8 [0] = Raise IndexError /\
  @FilterRecordingSegment.get_traces Bench.numpy Bench.scipy Bench.sos_segment 0 1 [0]
    = Raise ValueError /\
  @FilterRecordingSegment.get_traces Bench.numpy Bench.scipy Bench.zpk_segment 3 8 [0]
    = Raise UnboundLocalError /\
  @FilterRecordingSegment.get_traces Bench.numpy Bench.scipy
    Bench.mistagged_segment 3 8 [0] = Raise ValueError.
Proof.
  split; [|split; [|split]].
  - apply (proj1 (@get_traces_failures Bench.numpy Bench.scipy
                    Bench.unreadable_segment 3 8 [0])).
    reflexivity.
  - eapply (proj1 (proj2 (@get_traces_failures Bench.numpy Bench.scipy
                            Bench.sos_segment 0 1 [0]) _ _ _ eq_refl)).
    reflexivity.
  - eapply (proj1 (proj2 (proj2 (@get_traces_failures Bench.numpy Bench.scipy
                                   Bench.zpk_segment 3 8 [0]) _ _ _ eq_refl)));
      by_decide.
  - eapply (proj2 (proj2 (proj2 (@get_traces_failures Bench.numpy Bench.scipy
                                   Bench.mistagged_segment 3 8 [0]) _ _ _ eq_refl)));
      [reflexivity | reflexivity | cbn; lia].
Defined.

(** X16: the band-pass variant cannot be turned into a low-pass or a
    high-pass.  It always passes the list [[freq_min, freq_max]], so with
    [btype='lowpass'] or [btype='highpass'] among its keywords, and a valid
    representation, it raises [TypeError] whatever the frequencies are. *)
Theorem BandpassFilterRecording_needs_band `{SciPySignal} recording freq_min
    freq_max margin_ms d filter_kwargs btype :
  dk_btype filter_kwargs = Some btype ->
  btype ∈ ["lowpass"; "highpass"] ->
  default "sos" (dk_filter_mode filter_kwargs) ∈ ["sos"; "ba"] ->
  BandpassFilterRecording recording freq_min freq_max margin_ms d filter_kwargs
    = Raise TypeError.
Proof.
  intros Hbt Hb Hm. destruct (in_cutoff_family _ Hb) as [Hin Hout].
  rewrite BandpassFilterRecording_run. rewrite Hbt. cbn [default].
  rewrite (bool_decide_eq_true_2 _ Hin), (bool_decide_eq_true_2 _ Hm).
  unfold FilterRecording.Wn. by rewrite (bool_decide_eq_false_2 _ Hout).
Qed.

Lemma BandpassFilterRecording_needs_band_witness :
  @BandpassFilterRecording Bench.scipy Bench.parent 300 6000 5 None
    {| dk_btype := Some "highpass"; dk_filter_order := None; dk_ftype := None;
       dk_filter_mode := None |} = Raise TypeError.
Proof.
  apply (@BandpassFilterRecording_needs_band Bench.scipy Bench.parent 300%float
           6000%float 5%float None _ "highpass"); [reflexivity | by_decide | by_decide].
Defined.
